(** * MathAgent: workflow generation and execution engine

    A shallow embedding of [src/math_agent/agent.py] (class [MathAgent]).

    The Python object [self] becomes the record [Agent]; the methods become
    computations in a small state-and-exception monad [M] over a
    configuration [Cfg] that holds the agent, the state of the outside
    world (language-model backend, wall clock) and a ghost list of the calls
    made to the external collaborators.  A Python exception keeps the
    mutations made before it was raised, so [M] returns the configuration
    in both outcomes.  Console output ([print]) is not modelled. *)

From Stdlib Require Import String Ascii List Arith Lia Bool DecimalString.
Import ListNotations.
Open Scope string_scope.

(** ** Data *)

(** A Python exception, identified with [str(e)]. *)
Definition exn := string.

Inductive Result (A : Type) : Type :=
| Ok (a : A)
| Raise (e : exn).
Arguments Ok {A} a.
Arguments Raise {A} e.

(** One entry of [self.messages]: [{"role": ..., "content": ...}]. *)
Record Message := mkMessage { role : string; content : string }.

(** One entry of [self.debug_logs]; the keys [error] and [traceback] exist
    only in entries written by [_log_error] with an exception. *)
Record LogEntry := mkLogEntry {
  log_type : string;
  log_message : string;
  log_timestamp : string;
  log_error : option string;
  log_traceback : option string
}.

(** One step of a workflow:
    [{"action_type": ..., "action": ..., "tool_use": [...]}]. *)
Record Step := mkStep {
  action_type : string;
  action : string;
  tool_use : list string
}.

Definition Workflow := list Step.

(** The dictionary returned by [run]; a key that a dictionary may lack is
    an [option]. *)
Record RunResult := mkRunResult {
  r_agent_name : string;
  r_result : option string;
  r_rounds : nat;
  r_status : string;
  r_error : option string;
  r_debug_logs : list LogEntry
}.

(** The dictionary returned by [get_status]. *)
Record StatusInfo := mkStatusInfo {
  si_agent_name : string;
  si_status : string;
  si_rounds : option nat;
  si_workflow_mode : option string;
  si_error : option string;
  si_debug_logs : list LogEntry;
  si_timestamp : string
}.

(** The fields of [self] that the methods read or write. [config] is the
    configuration dictionary (key to list of strings); [tool_info_dump] is
    the outcome of evaluating [json.dumps(self.tool_info)]. *)
Record Agent := mkAgent {
  agent_name : string;
  task_input : string;
  config : list (string * list string);
  tool_info_dump : Result string;
  plan_max_fail_times : nat;
  tool_call_max_fail_times : nat;
  messages : list Message;
  workflow_mode : string;
  rounds : nat;
  status : string;
  debug_logs : list LogEntry
}.

Definition set_messages (ms : list Message) (a : Agent) : Agent :=
  mkAgent (agent_name a) (task_input a) (config a) (tool_info_dump a)
    (plan_max_fail_times a) (tool_call_max_fail_times a)
    ms (workflow_mode a) (rounds a) (status a) (debug_logs a).

Definition set_workflow_mode (m : string) (a : Agent) : Agent :=
  mkAgent (agent_name a) (task_input a) (config a) (tool_info_dump a)
    (plan_max_fail_times a) (tool_call_max_fail_times a)
    (messages a) m (rounds a) (status a) (debug_logs a).

Definition set_rounds (n : nat) (a : Agent) : Agent :=
  mkAgent (agent_name a) (task_input a) (config a) (tool_info_dump a)
    (plan_max_fail_times a) (tool_call_max_fail_times a)
    (messages a) (workflow_mode a) n (status a) (debug_logs a).

Definition set_status (st : string) (a : Agent) : Agent :=
  mkAgent (agent_name a) (task_input a) (config a) (tool_info_dump a)
    (plan_max_fail_times a) (tool_call_max_fail_times a)
    (messages a) (workflow_mode a) (rounds a) st (debug_logs a).

Definition set_debug_logs (l : list LogEntry) (a : Agent) : Agent :=
  mkAgent (agent_name a) (task_input a) (config a) (tool_info_dump a)
    (plan_max_fail_times a) (tool_call_max_fail_times a)
    (messages a) (workflow_mode a) (rounds a) (status a) l.

(** ** Small helpers for Python expressions *)

(** The double-quote character. *)
Definition dq : string := String (ascii_of_nat 34) EmptyString.

(** [str(n)] for a non-negative integer. *)
Definition str_of_nat (n : nat) : string :=
  NilEmpty.string_of_uint (Nat.to_uint n).

(** [self.config[key]]: the first binding of [key]. *)
Fixpoint config_get (key : string) (cfg : list (string * list string))
  : option (list string) :=
  match cfg with
  | [] => None
  | (k, v) :: rest => if String.eqb k key then Some v else config_get key rest
  end.

(** Truth value of a workflow object: [None] and [[]] are false. *)
Definition truthy (w : option Workflow) : bool :=
  match w with
  | Some (_ :: _) => true
  | _ => false
  end.

(** [l[-1]] *)
Definition last_opt {A : Type} (l : list A) : option A :=
  match rev l with
  | [] => None
  | x :: _ => Some x
  end.

(** The fixed part of [plan_instruction] that follows the tool list. *)
Definition plan_instruction_tail : string :=
  String.concat "" [
    " to help you solve problems. ";
    "Generate a plan with comprehensive yet minimal steps to fulfill the task. ";
    "The plan must follow the json format as below: ";
    "[";
    "{" ++ dq ++ "action_type" ++ dq ++ ": " ++ dq ++ "action_type_value" ++ dq
      ++ ", " ++ dq ++ "action" ++ dq ++ ": " ++ dq ++ "action_value" ++ dq
      ++ "," ++ dq ++ "tool_use" ++ dq ++ ": [tool_name1, tool_name2,...]}";
    "{" ++ dq ++ "action_type" ++ dq ++ ": " ++ dq ++ "action_type_value" ++ dq
      ++ ", " ++ dq ++ "action" ++ dq ++ ": " ++ dq ++ "action_value" ++ dq
      ++ ", " ++ dq ++ "tool_use" ++ dq ++ ": [tool_name1, tool_name2,...]}";
    "...";
    "]";
    "In each step of the planned plan, identify tools to use and recognize no tool is necessary. ";
    "Followings are some plan examples. ";
    "[[";
    "{" ++ dq ++ "action_type" ++ dq ++ ": " ++ dq ++ "tool_use" ++ dq
      ++ ", " ++ dq ++ "action" ++ dq ++ ": " ++ dq
      ++ "gather information from arxiv. " ++ dq
      ++ ", " ++ dq ++ "tool_use" ++ dq ++ ": [" ++ dq ++ "arxiv" ++ dq ++ "]},";
    "{" ++ dq ++ "action_type" ++ dq ++ ": " ++ dq ++ "chat" ++ dq
      ++ ", " ++ dq ++ "action" ++ dq ++ ": " ++ dq
      ++ "write a summarization based on the gathered information. " ++ dq
      ++ ", " ++ dq ++ "tool_use" ++ dq ++ ": []}";
    "];";
    "[";
    "{" ++ dq ++ "action_type" ++ dq ++ ": " ++ dq ++ "tool_use" ++ dq
      ++ ", " ++ dq ++ "action" ++ dq ++ ": " ++ dq
      ++ "gather information from arxiv. " ++ dq
      ++ ", " ++ dq ++ "tool_use" ++ dq ++ ": [" ++ dq ++ "arxiv" ++ dq ++ "]},";
    "{" ++ dq ++ "action_type" ++ dq ++ ": " ++ dq ++ "chat" ++ dq
      ++ ", " ++ dq ++ "action" ++ dq ++ ": " ++ dq
      ++ "understand the current methods and propose ideas that can improve " ++ dq
      ++ ", " ++ dq ++ "tool_use" ++ dq ++ ": []}";
    "]";
    "]"
  ].

(** The template of [manual_workflow]. *)
Definition manual_template : Workflow := [
  mkStep "tool_use" "Search for relevant mathematical concepts and formulas"
         ["demo_author/arxiv"];
  mkStep "chat" "Analyze the mathematical problem and provide solution steps" [];
  mkStep "chat" "Calculate and verify the final answer" []
].

(** ** Reading the log *)

(** [starts_with p s]: [s.startswith(p)]. *)
Fixpoint starts_with (p s : string) : bool :=
  match p, s with
  | EmptyString, _ => true
  | String a p', String b s' => if Ascii.eqb a b then starts_with p' s' else false
  | String _ _, EmptyString => false
  end.

(** [drop n s]: [s[n:]]. *)
Fixpoint drop (n : nat) (s : string) : string :=
  match n, s with
  | 0, _ => s
  | S n', String _ s' => drop n' s'
  | S _, EmptyString => EmptyString
  end.

(** Splits [s] at the first occurrence of [" -> "]. *)
Fixpoint split_arrow (s : string) : option (string * string) :=
  if starts_with " -> " s then Some (EmptyString, drop 4 s)
  else match s with
       | EmptyString => None
       | String c s' =>
           match split_arrow s' with
           | Some (l, r) => Some (String c l, r)
           | None => None
           end
       end.

(** The transition recorded by a log entry written by [_update_status]:
    a debug entry whose message is ["Status changed: old -> new"]. *)
Definition transition_of (e : LogEntry) : option (string * string) :=
  if String.eqb (log_type e) "debug" && starts_with "Status changed: " (log_message e)
  then split_arrow (drop 16 (log_message e))
  else None.

Fixpoint transitions (l : list LogEntry) : list (string * string) :=
  match l with
  | [] => []
  | e :: rest =>
      match transition_of e with
      | Some t => t :: transitions rest
      | None => transitions rest
      end
  end.

(** Replays a list of transitions from a starting status: the statuses
    visited, provided every transition starts where the previous ended. *)
Fixpoint replay (cur : string) (ts : list (string * string)) : option (list string) :=
  match ts with
  | [] => Some [cur]
  | (old, new) :: rest =>
      if String.eqb old cur then
        match replay new rest with
        | Some l => Some (cur :: l)
        | None => None
        end
      else None
  end.

(** ** External collaborators *)

(** A tool descriptor as handed out by the tool registry (opaque here). *)
Definition Tool := string.

(** [LLMQuery(messages=..., tools=..., action_type=..., message_return_type=...)];
    a keyword that the call site does not pass is [None]. *)
Record LLMQuery := mkLLMQuery {
  q_messages : list Message;
  q_tools : option (list Tool);
  q_action_type : option string;
  q_message_return_type : option string
}.

(** Ghost record of the calls made to the collaborators, in call order,
    each with its outcome. *)
Inductive Event : Type :=
| EvSendRequest (name : string) (q : LLMQuery) (outcome : Result string)
| EvPreSelectTools (names : list string) (outcome : Result (list Tool)).

Definition is_request (ev : Event) : bool :=
  match ev with
  | EvSendRequest _ _ _ => true
  | EvPreSelectTools _ _ => false
  end.

(** Number of language-model requests in a call record. *)
Definition count_requests (evs : list Event) : nat :=
  length (filter is_request evs).

(** The call returned rather than raised. *)
Definition event_ok (ev : Event) : bool :=
  match ev with
  | EvSendRequest _ _ (Ok _) => true
  | EvPreSelectTools _ (Ok _) => true
  | _ => false
  end.

(** ** Sample collaborators

    Concrete collaborators on which the model can be run: the world is
    the number of requests sent so far. *)

(** A backend that raises on request number [fail_at] and replies
    otherwise. *)
Definition sample_send (fail_at : option nat) (_ : string) (_ : LLMQuery) (w : nat)
  : Result string * nat :=
  (match fail_at with
   | Some k => if Nat.eqb k w then Raise "connection reset" else Ok "reply"
   | None => Ok "reply"
   end, S w).

(** A backend that is down: every request raises. *)
Definition sample_send_down (_ : string) (_ : LLMQuery) (w : nat)
  : Result string * nat :=
  (Raise "connection reset", S w).

Definition sample_select (names : list string) : Result (list Tool) := Ok names.

Definition sample_plan : Workflow := [
  mkStep "chat" "Rewrite the equation" [];
  mkStep "chat" "Solve it" []
].

Definition sample_check_accept (_ : string) : Result (option Workflow) :=
  Ok (Some sample_plan).

Definition sample_check_reject (_ : string) : Result (option Workflow) := Ok None.

Definition sample_now (w : nat) : string * nat := ("2025-01-01T00:00:00", w).

Definition sample_format_exc (e : exn) : string :=
  "Traceback (most recent call last): " ++ e.

Definition sample_dumps_workflow (_ : Workflow) : string := "[...]".

Definition sample_dumps_status_ok (_ : StatusInfo) : Result string := Ok "{...}".

Definition sample_dumps_status_fail (_ : StatusInfo) : Result string :=
  Raise "Object of type set is not JSON serializable".

Definition sample_config : list (string * list string) :=
  [("name", ["math_agent"]); ("description", ["You are a math expert. "])].

(** ** The agent *)

Section MathAgent.

(** State of everything outside the agent: the backend and the clock. *)
Variable World : Type.

(** [self.send_request(agent_name, query)["response"].response_message]:
    the text of the reply, or the exception raised on the way to it. *)
Variable send_request : string -> LLMQuery -> World -> Result string * World.

(** [self.pre_select_tools(tool_use)]: a lookup in the agent's tool list,
    which [run] never changes. *)
Variable pre_select_tools : list string -> Result (list Tool).

(** [self.check_workflow(message)]: the parsed plan, or [None]; it reads
    nothing but its argument. *)
Variable check_workflow : string -> Result (option Workflow).

(** [datetime.datetime.now().isoformat()] *)
Variable now : World -> string * World.

(** [traceback.format_exc()] while the exception is being handled. *)
Variable format_exc : exn -> string.

(** [json.dumps(workflow)] *)
Variable json_dumps_workflow : Workflow -> string.

(** [json.dumps(status_info, indent=2)] *)
Variable json_dumps_status : StatusInfo -> Result string.

Record Cfg := mkCfg {
  self : Agent;
  world : World;
  calls : list Event
}.

(** *** The monad *)

Definition M (A : Type) : Type := Cfg -> Result A * Cfg.

Definition ret {A : Type} (a : A) : M A := fun c => (Ok a, c).

Definition raise {A : Type} (e : exn) : M A := fun c => (Raise e, c).

Definition bind {A B : Type} (m : M A) (k : A -> M B) : M B :=
  fun c =>
    match m c with
    | (Ok a, c') => k a c'
    | (Raise e, c') => (Raise e, c')
    end.

(** [try: m except Exception as e: h e] *)
Definition try_except {A : Type} (m : M A) (h : exn -> M A) : M A :=
  fun c =>
    match m c with
    | (Ok a, c') => (Ok a, c')
    | (Raise e, c') => h e c'
    end.

Notation "x <- m ;; k" := (bind m (fun x => k))
  (at level 61, m at next level, right associativity).
Notation "m ;;; k" := (bind m (fun _ => k))
  (at level 61, right associativity).

Definition get {A : Type} (f : Agent -> A) : M A := fun c => (Ok (f (self c)), c).

Definition modify (f : Agent -> Agent) : M unit :=
  fun c => (Ok tt, mkCfg (f (self c)) (world c) (calls c)).

Definition lift {A : Type} (r : Result A) : M A := fun c => (r, c).

Definition datetime_now : M string :=
  fun c => (Ok (fst (now (world c))), mkCfg (self c) (snd (now (world c))) (calls c)).

Definition call_send_request (q : LLMQuery) : M string :=
  fun c =>
    let name := agent_name (self c) in
    match send_request name q (world c) with
    | (r, w) => (r, mkCfg (self c) w (calls c ++ [EvSendRequest name q r]))
    end.

Definition call_pre_select_tools (names : list string) : M (list Tool) :=
  fun c =>
    let r := pre_select_tools names in
    (r, mkCfg (self c) (world c) (calls c ++ [EvPreSelectTools names r])).

(** [self.messages.append({"role": r, "content": c})] *)
Definition append_message (r c : string) : M unit :=
  modify (fun a => set_messages (messages a ++ [mkMessage r c]) a).

(** *** Logging and status *)

Definition _log_debug (message : string) : M unit :=
  ts <- datetime_now;;
  modify (fun a =>
    set_debug_logs (debug_logs a ++ [mkLogEntry "debug" message ts None None]) a).

Definition error_entry (message ts : string) (error : option exn) : LogEntry :=
  match error with
  | Some e => mkLogEntry "error" message ts (Some e) (Some (format_exc e))
  | None => mkLogEntry "error" message ts None None
  end.

Definition _log_error (message : string) (error : option exn) : M unit :=
  ts <- datetime_now;;
  let error_info := error_entry message ts error in
  modify (fun a => set_debug_logs (debug_logs a ++ [error_info]) a).

Definition status_message (old_status new_status : string) : string :=
  "Status changed: " ++ old_status ++ " -> " ++ new_status.

Definition _update_status (new_status : string) : M unit :=
  old_status <- get status;;
  modify (set_status new_status);;;
  _log_debug (status_message old_status new_status).

(** [MathAgent.__init__], after [BaseAgent.__init__] has stored the name,
    the configuration and the tool information. *)
Definition init (name task : string) (cfg : list (string * list string))
    (tools : Result string) (w : World) : Cfg :=
  let a := mkAgent name task cfg tools 3 3 [] "manual" 0 "initialized" [] in
  snd ((_log_debug ("MathAgent initialized with name: " ++ name ++ ", task: " ++ task);;;
        st <- get status;;
        _log_debug ("Initial status: " ++ st)) (mkCfg a w [])).

(** A caller's [agent.workflow_mode = mode] between construction and [run]. *)
Definition with_mode (mode : string) (c : Cfg) : Cfg :=
  mkCfg (set_workflow_mode mode (self c)) (world c) (calls c).

(** *** get_status *)

Definition get_status : M StatusInfo :=
  try_except
    (name <- get agent_name;;
     st <- get status;;
     r <- get rounds;;
     mode <- get workflow_mode;;
     ts <- datetime_now;;
     _log_debug "Status requested";;;
     (* [status_info["debug_logs"]] is the list object itself, so it shows
        the entry just appended *)
     logs <- get debug_logs;;
     let status_info := mkStatusInfo name st (Some r) (Some mode) None logs ts in
     _ <- lift (json_dumps_status status_info);;
     ret status_info)
    (fun e =>
     let error_msg := "Error getting status: " ++ e in
     _log_error error_msg (Some e);;;
     name <- get agent_name;;
     logs <- get debug_logs;;
     ts <- datetime_now;;
     ret (mkStatusInfo name "error" None None (Some e) logs ts)).

(** *** Planning *)

Definition build_system_instruction : M bool :=
  try_except
    (_update_status "building_system_instruction";;;
     cfg <- get config;;
     prefix <- match config_get "description" cfg with
               | Some d => ret (String.concat "" [String.concat "" d])
               | None => raise ("'description'")
               end;;
     tools <- get tool_info_dump;;
     dump <- lift tools;;
     let plan_instruction :=
       "You are given the available tools from the tool list: " ++ dump
         ++ plan_instruction_tail in
     mode <- get workflow_mode;;
     (if String.eqb mode "manual" then
        append_message "system" prefix
      else
        (if String.eqb mode "automatic" then ret tt else raise "");;;
        append_message "system" prefix;;;
        append_message "user" plan_instruction);;;
     _update_status "system_instruction_built";;;
     ret true)
    (fun e =>
     _log_error "Error in build_system_instruction" (Some e);;;
     _update_status "error";;;
     ret false).

Definition manual_workflow : M (option Workflow) :=
  try_except
    (_update_status "generating_workflow";;;
     let workflow := manual_template in
     _update_status "workflow_generated";;;
     ret (Some workflow))
    (fun e =>
     _log_error "Error in manual_workflow" (Some e);;;
     _update_status "error";;;
     ret None).

Definition fail_notice (i : nat) : Message :=
  mkMessage "assistant"
    ("Fail " ++ str_of_nat (i + 1)
       ++ " times to generate a valid plan. I need to regenerate a plan").

(** The query of a planning attempt. *)
Definition planning_query (ms : list Message) : LLMQuery :=
  mkLLMQuery ms None None (Some "json").

(** The loop [for i in range(self.plan_max_fail_times)] with [n] iterations
    left, followed by the code after the loop. *)
Fixpoint planning_loop (n i : nat) : M (option Workflow) :=
  match n with
  | 0 =>
      _update_status "workflow_generation_failed";;;
      ret None
  | S n' =>
      ms <- get messages;;
      response <- call_send_request (planning_query ms);;
      workflow <- lift (check_workflow response);;
      modify (fun a => set_rounds (rounds a + 1) a);;;
      if truthy workflow then
        _update_status "workflow_generated";;;
        ret workflow
      else
        modify (fun a => set_messages (messages a ++ [fail_notice i]) a);;;
        planning_loop n' (S i)
  end.

Definition automatic_workflow : M (option Workflow) :=
  try_except
    (_update_status "generating_workflow";;;
     n <- get plan_max_fail_times;;
     planning_loop n 0)
    (fun e =>
     _log_error "Error in automatic_workflow" (Some e);;;
     _update_status "error";;;
     ret None).

(** *** Execution *)

Definition step_prompt (i : nat) (step : Step) : Message :=
  mkMessage "user"
    ("At step " ++ str_of_nat (i + 1) ++ ", you need to: " ++ action step ++ ". ").

(** The body of the loop [for i, step in enumerate(workflow)]. *)
Definition execute_step (i : nat) (step : Step) : M unit :=
  _log_debug ("Executing step " ++ str_of_nat (i + 1) ++ ": " ++ action step);;;
  modify (fun a => set_messages (messages a ++ [step_prompt i step]) a);;;
  selected_tools <- match tool_use step with
                    | _ :: _ => ts <- call_pre_select_tools (tool_use step);; ret (Some ts)
                    | [] => ret None
                    end;;
  ms <- get messages;;
  response <- call_send_request
                (mkLLMQuery ms selected_tools (Some (action_type step)) None);;
  append_message "assistant" response;;;
  modify (fun a => set_rounds (rounds a + 1) a).

Fixpoint execute_steps (i : nat) (workflow : Workflow) : M unit :=
  match workflow with
  | [] => ret tt
  | step :: rest => execute_step i step;;; execute_steps (S i) rest
  end.

(** The dictionary literals of [run], read off the agent at that point. *)
Definition result_now (result : string) (error : option string) : M RunResult :=
  name <- get agent_name;;
  r <- get rounds;;
  st <- get status;;
  logs <- get debug_logs;;
  ret (mkRunResult name (Some result) r st error logs).

Definition thinking_message (workflow : Workflow) : Message :=
  mkMessage "user"
    ("[Thinking]: The workflow generated for the problem is "
       ++ json_dumps_workflow workflow
       ++ ". Follow the workflow to solve the problem step by step. ").

(** Lines 110-116 of [run]: the planner call and, in automatic mode, the
    truncation [self.messages = self.messages[:1]]. *)
Definition obtain_workflow : M (option Workflow) :=
  mode <- get workflow_mode;;
  if String.eqb mode "automatic" then
    workflow <- automatic_workflow;;
    modify (fun a => set_messages (firstn 1 (messages a)) a);;;
    ret workflow
  else
    manual_workflow.

(** Lines 94-127 of [run]: everything up to the decision whether there is
    a workflow to execute. [inl] is an early [return] of a failure result,
    [inr] the workflow with which [run] goes on. *)
Definition run_setup : M (RunResult + Workflow) :=
  _update_status "running";;;
  task <- get task_input;;
  _log_debug ("Starting run with task: " ++ task);;;
  built <- build_system_instruction;;
  if negb built then
    error_result <- result_now "Failed to build system instruction" None;;
    ret (inl error_result)
  else
    task_input <- get task_input;;
    append_message "user" task_input;;;
    workflow <- obtain_workflow;;
    if negb (truthy workflow) then
      _update_status "failed";;;
      error_result <- result_now "Failed to generate a valid workflow." None;;
      ret (inl error_result)
    else
      ret (inr (match workflow with Some w => w | None => [] end)).

(** Lines 129-137 of [run]. *)
Definition begin_execution (workflow : Workflow) : M unit :=
  modify (fun a => set_messages (messages a ++ [thinking_message workflow]) a);;;
  _update_status "executing_workflow".

(** Lines 165-175 of [run]. *)
Definition finish_execution : M RunResult :=
  ms <- get messages;;
  final_result <- match last_opt ms with
                  | Some m => ret (content m)
                  | None => raise "list index out of range"
                  end;;
  _update_status "completed";;;
  result_now final_result None.

(** The [try] block of [run]. *)
Definition run_body : M RunResult :=
  r <- run_setup;;
  match r with
  | inl error_result => ret error_result
  | inr workflow =>
      begin_execution workflow;;;
      execute_steps 0 workflow;;;
      finish_execution
  end.

(** The [except Exception as e] block of [run]. *)
Definition run_handler (e : exn) : M RunResult :=
  _update_status "error";;;
  _log_error "Error during execution" (Some e);;;
  result_now ("Error occurred during execution: " ++ e) (Some e).

Definition run : M RunResult := try_except run_body run_handler.

(** *** Vocabulary of the statements *)

(** [m] returns from every configuration: it never raises. *)
Definition never_raises {A : Type} (m : M A) : Prop :=
  forall c, exists a, fst (m c) = Ok a.

(** The requests of successive rejected planning attempts that start with
    conversation [ms] at attempt index [i], one per reply: each one sees
    the notices of the attempts before it. *)
Fixpoint planning_requests (name : string) (ms : list Message) (i : nat)
    (replies : list string) : list Event :=
  match replies with
  | [] => []
  | r :: rest =>
      EvSendRequest name (planning_query ms) (Ok r)
        :: planning_requests name (ms ++ [fail_notice i]) (S i) rest
  end.

(** The failure notices of attempts [i], ..., [i + n - 1]. *)
Definition fail_notices (i n : nat) : list Message :=
  map fail_notice (seq i n).

(** [l1] is an initial segment of [l2]. *)
Definition extends {A : Type} (l1 l2 : list A) : Prop :=
  exists tl, l2 = (l1 ++ tl)%list.

(** What no method undoes: the identity of the agent and its settings
    stay, the log and the record of calls only grow at the end, and
    [rounds] grows, by no more than the number of requests made. *)
Definition grows (c c' : Cfg) : Prop :=
  agent_name (self c') = agent_name (self c) /\
  task_input (self c') = task_input (self c) /\
  config (self c') = config (self c) /\
  tool_info_dump (self c') = tool_info_dump (self c) /\
  plan_max_fail_times (self c') = plan_max_fail_times (self c) /\
  workflow_mode (self c') = workflow_mode (self c) /\
  extends (debug_logs (self c)) (debug_logs (self c')) /\
  extends (calls c) (calls c') /\
  rounds (self c) <= rounds (self c') /\
  rounds (self c') + count_requests (calls c)
  <= rounds (self c) + count_requests (calls c').

(** [m] keeps [grows] from every configuration, whether it returns or
    raises. *)
Definition keeps {A : Type} (m : M A) : Prop :=
  forall c, grows c (snd (m c)).

(** The messages that completed steps add to the conversation: for each
    step its prompt and then the assistant's reply. *)
Fixpoint exchanges (i : nat) (workflow : Workflow) (replies : list string)
  : list Message :=
  match workflow, replies with
  | step :: rest, r :: rs =>
      step_prompt i step :: mkMessage "assistant" r :: exchanges (S i) rest rs
  | _, _ => []
  end.

(** The instruction cannot be built from this agent. *)
Definition build_fails (a : Agent) : Prop :=
  config_get "description" (config a) = None \/
  (exists e, tool_info_dump a = Raise e) \/
  (workflow_mode a <> "manual" /\ workflow_mode a <> "automatic").

(** Lines 94-95 of [run]: what precedes the call of
    [build_system_instruction]. *)
Definition run_prologue : M unit :=
  _update_status "running";;;
  task <- get task_input;;
  _log_debug ("Starting run with task: " ++ task).

(** Lines 129-175 of [run]: what [run] does with an accepted workflow. *)
Definition run_execution (workflow : Workflow) : M RunResult :=
  begin_execution workflow;;;
  execute_steps 0 workflow;;;
  finish_execution.

(** What a recorded call shows of a language-model request: the
    conversation it carried, its action type and its outcome. A tool
    selection shows nothing. *)
Definition request_view (ev : Event)
  : list (list Message * option string * Result string) :=
  match ev with
  | EvSendRequest _ q outcome => [(q_messages q, q_action_type q, outcome)]
  | EvPreSelectTools _ _ => []
  end.

Definition request_views (evs : list Event)
  : list (list Message * option string * Result string) :=
  flat_map request_view evs.

(** The requests of a step loop that starts with conversation [ms] and
    gets the replies [replies]: the request of a step carries the
    conversation so far with the step's prompt, and the step's action
    type, and is answered by the step's reply. *)
Fixpoint expected_views (ms : list Message) (i : nat) (workflow : Workflow)
    (replies : list string)
  : list (list Message * option string * Result string) :=
  match workflow, replies with
  | step :: rest, r :: rs =>
      ((ms ++ [step_prompt i step])%list, Some (action_type step), Ok r)
        :: expected_views
             (ms ++ [step_prompt i step; mkMessage "assistant" r])%list
             (S i) rest rs
  | _, _ => []
  end.

(** ** Properties *)

Local Open Scope list_scope.

(** *** The monad *)

Lemma bind_ok {A B : Type} (m : M A) (k : A -> M B) c a :
  fst (m c) = Ok a -> bind m k c = k a (snd (m c)).
Proof. unfold bind. destruct (m c) as [[x | e] c']; cbn; intros H; inversion H; reflexivity. Qed.

Lemma bind_raise {A B : Type} (m : M A) (k : A -> M B) c e :
  fst (m c) = Raise e -> bind m k c = (Raise e, snd (m c)).
Proof. unfold bind. destruct (m c) as [[x | e'] c']; cbn; intros H; inversion H; reflexivity. Qed.

Lemma try_except_ok {A : Type} (m : M A) h c a :
  fst (m c) = Ok a -> try_except m h c = (Ok a, snd (m c)).
Proof. unfold try_except. destruct (m c) as [[x | e] c']; cbn; intros H; inversion H; reflexivity. Qed.

Lemma try_except_raise {A : Type} (m : M A) h c e :
  fst (m c) = Raise e -> try_except m h c = h e (snd (m c)).
Proof. unfold try_except. destruct (m c) as [[x | e'] c']; cbn; intros H; inversion H; reflexivity. Qed.

Lemma never_raises_ret {A : Type} (a : A) : never_raises (ret a).
Proof. intros c. exists a. reflexivity. Qed.

Lemma never_raises_bind {A B : Type} (m : M A) (k : A -> M B) :
  never_raises m -> (forall a, never_raises (k a)) -> never_raises (bind m k).
Proof.
  intros Hm Hk c. destruct (Hm c) as [a Ha].
  rewrite (bind_ok m k c a Ha). apply Hk.
Qed.

Lemma never_raises_try_except {A : Type} (m : M A) h :
  (forall e, never_raises (h e)) -> never_raises (try_except m h).
Proof.
  intros Hh c. destruct (fst (m c)) as [a | e] eqn:E.
  - rewrite (try_except_ok m h c a E). exists a. reflexivity.
  - rewrite (try_except_raise m h c e E). apply Hh.
Qed.

Lemma never_raises_get {A : Type} (f : Agent -> A) : never_raises (get f).
Proof. intros c. exists (f (self c)). reflexivity. Qed.

Lemma never_raises_modify f : never_raises (modify f).
Proof. intros c. exists tt. reflexivity. Qed.

Lemma never_raises_datetime_now : never_raises datetime_now.
Proof. intros c. eexists. reflexivity. Qed.

Lemma never_raises_log_debug msg : never_raises (_log_debug msg).
Proof. intros c. exists tt. reflexivity. Qed.

Lemma never_raises_log_error msg err : never_raises (_log_error msg err).
Proof. intros c. exists tt. reflexivity. Qed.

Lemma never_raises_update_status st : never_raises (_update_status st).
Proof. intros c. exists tt. reflexivity. Qed.

Lemma never_raises_result_now text err : never_raises (result_now text err).
Proof. intros c. eexists. reflexivity. Qed.

Ltac nr_step :=
  lazymatch goal with
  | |- never_raises (bind _ _) => apply never_raises_bind; [ | intros ? ]
  | |- never_raises (try_except _ _) => apply never_raises_try_except; intros ?
  | |- never_raises (_log_error _ _) => apply never_raises_log_error
  | |- never_raises (_log_debug _) => apply never_raises_log_debug
  | |- never_raises (_update_status _) => apply never_raises_update_status
  | |- never_raises (result_now _ _) => apply never_raises_result_now
  | |- never_raises (get _) => apply never_raises_get
  | |- never_raises (modify _) => apply never_raises_modify
  | |- never_raises (ret _) => apply never_raises_ret
  | |- never_raises datetime_now => apply never_raises_datetime_now
  end.

(** *** manual_workflow *)

(** C8. [manual_workflow] returns the fixed three-step template whatever
    the configuration it is called from, so two calls (from the same
    configuration, from different ones, or one after the other) return
    the same workflow, step for step; and it records no call to a
    collaborator, in particular no language-model request. *)
Theorem manual_workflow_deterministic :
  forall c1 c2 : Cfg,
    fst (manual_workflow c1) = Ok (Some manual_template) /\
    fst (manual_workflow c2) = fst (manual_workflow c1) /\
    fst (manual_workflow (snd (manual_workflow c1))) = fst (manual_workflow c1) /\
    length manual_template = 3 /\
    map (fun s => (action_type s, tool_use s)) manual_template
      = [("tool_use", ["demo_author/arxiv"]); ("chat", []); ("chat", [])] /\
    calls (snd (manual_workflow c1)) = calls c1 /\
    count_requests (calls (snd (manual_workflow c1))) = count_requests (calls c1).
Proof.
  intros c1 c2. repeat split.
Qed.

(** *** get_status *)

(** C9. [get_status] returns from every configuration. When the snapshot
    is assembled without failure it is returned; when [json.dumps] raises
    [e], the handler appends an error entry (message, [str(e)], stack
    trace) to [debug_logs] and returns the degraded snapshot: agent name,
    status ["error"], [str(e)], the debug log and a timestamp, without
    [rounds] and [workflow_mode]. *)
Theorem get_status_never_raises :
  forall c : Cfg,
    never_raises get_status /\
    let a := self c in
    let t1 := now (world c) in
    let t2 := now (snd t1) in
    let logs := debug_logs a ++ [mkLogEntry "debug" "Status requested" (fst t2) None None] in
    let status_info :=
      mkStatusInfo (agent_name a) (status a) (Some (rounds a))
        (Some (workflow_mode a)) None logs (fst t1) in
    match json_dumps_status status_info with
    | Ok _ =>
        fst (get_status c) = Ok status_info /\
        debug_logs (self (snd (get_status c))) = logs
    | Raise e =>
        let t3 := now (snd t2) in
        let t4 := now (snd t3) in
        let logs' :=
          logs ++ [mkLogEntry "error" ("Error getting status: " ++ e) (fst t3)
                     (Some e) (Some (format_exc e))] in
        fst (get_status c)
          = Ok (mkStatusInfo (agent_name a) "error" None None (Some e) logs' (fst t4)) /\
        debug_logs (self (snd (get_status c))) = logs'
    end.
Proof.
  intros c. split.
  - unfold get_status. apply never_raises_try_except. intros e.
    repeat nr_step.
  - cbv zeta.
    destruct (json_dumps_status _) as [s | e] eqn:E.
    + unfold get_status, try_except. cbn. rewrite ?E. cbn. rewrite ?E. split; reflexivity.
    + unfold get_status, try_except. cbn. rewrite ?E. cbn. rewrite ?E. split; reflexivity.
Qed.

(** *** One step *)

(** C10. A step whose [tool_use] list is empty makes exactly one call to
    a collaborator: the language-model request, with [tools=None], the
    step's action type and the conversation extended by the step's
    prompt. [pre_select_tools] is not called. *)
Theorem empty_tool_use_offers_no_tools :
  forall (i : nat) (step : Step) (c : Cfg),
    tool_use step = [] ->
    let name := agent_name (self c) in
    let q := mkLLMQuery (messages (self c) ++ [step_prompt i step]) None
               (Some (action_type step)) None in
    let reply := fst (send_request name q (snd (now (world c)))) in
    calls (snd (execute_step i step c)) = calls c ++ [EvSendRequest name q reply] /\
    q_tools q = None.
Proof.
  intros i step c H. cbv zeta. split; [ | reflexivity ].
  unfold execute_step. rewrite H.
  unfold bind, call_send_request. cbn.
  destruct (send_request _ _ _) as [[r | e] w]; reflexivity.
Qed.

(** *** automatic_workflow *)

Lemma count_requests_app (l1 l2 : list Event) :
  count_requests (l1 ++ l2) = count_requests l1 + count_requests l2.
Proof. unfold count_requests. rewrite filter_app, length_app. reflexivity. Qed.

Section AlwaysRejected.

(** The transport answers every request, and the validator accepts no
    reply. *)
Hypothesis transport_replies :
  forall name q w, exists r, fst (send_request name q w) = Ok r.
Hypothesis validator_rejects :
  forall r, exists wf, check_workflow r = Ok wf /\ truthy wf = false.

Lemma planning_loop_rejected :
  forall (n i : nat) (c : Cfg),
    let c' := snd (planning_loop n i c) in
    fst (planning_loop n i c) = Ok None /\
    rounds (self c') = rounds (self c) + n /\
    messages (self c') = messages (self c) ++ fail_notices i n /\
    status (self c') = "workflow_generation_failed" /\
    exists replies,
      length replies = n /\
      calls c' = calls c
        ++ planning_requests (agent_name (self c)) (messages (self c)) i replies.
Proof.
  induction n as [ | n IH ]; intros i c; cbv zeta.
  - cbn. rewrite Nat.add_0_r, app_nil_r. repeat split.
    exists []. cbn. rewrite app_nil_r. split; reflexivity.
  - cbn [planning_loop]. unfold bind, call_send_request. cbn.
    match goal with
    | |- context [send_request ?nm ?q ?w] =>
        destruct (transport_replies nm q w) as [r Hr];
        destruct (send_request nm q w) as [r0 w0]; cbn in Hr; subst r0
    end.
    cbn. destruct (validator_rejects r) as [wf [Hwf Hfalse]].
    rewrite Hwf. cbn. rewrite Hfalse. cbn.
    match goal with
    | |- context [planning_loop n (S i) ?cx] =>
        destruct (IH (S i) cx) as (Hres & Hrounds & Hmsgs & Hstatus & replies & Hlen & Hcalls)
    end.
    cbn in Hrounds, Hmsgs, Hcalls.
    rewrite Hres, Hrounds, Hmsgs, Hstatus, Hcalls.
    repeat split.
    + lia.
    + unfold fail_notices. cbn [seq map]. rewrite <- app_assoc. reflexivity.
    + exists (r :: replies). split; [ cbn; congruence | ].
      cbn [planning_requests]. rewrite <- app_assoc. reflexivity.
Qed.

Lemma count_planning_requests name ms i replies :
  count_requests (planning_requests name ms i replies) = length replies.
Proof.
  revert ms i. induction replies as [ | r rest IH ]; intros ms i; [ reflexivity | ].
  cbn [planning_requests]. change (S (count_requests (planning_requests name (ms ++ [fail_notice i]) (S i) rest)) = length (r :: rest)).
  rewrite IH. reflexivity.
Qed.

End AlwaysRejected.


(** *** Symbolic execution *)

Lemma bind_eq_ok {A B : Type} (m : M A) (k : A -> M B) c a c' :
  m c = (Ok a, c') -> bind m k c = k a c'.
Proof. unfold bind. intros ->. reflexivity. Qed.

Lemma bind_eq_raise {A B : Type} (m : M A) (k : A -> M B) c e c' :
  m c = (Raise e, c') -> bind m k c = (Raise e, c').
Proof. unfold bind. intros ->. reflexivity. Qed.

Lemma try_except_eq_ok {A : Type} (m : M A) h c a c' :
  m c = (Ok a, c') -> try_except m h c = (Ok a, c').
Proof. unfold try_except. intros ->. reflexivity. Qed.

Lemma try_except_eq_raise {A : Type} (m : M A) h c e c' :
  m c = (Raise e, c') -> try_except m h c = h e c'.
Proof. unfold try_except. intros ->. reflexivity. Qed.

(** Runs the straight-line part of a computation on an explicit
    configuration; loops, string operations and list appends stay folded.
    [mstep] leaves the methods folded as well, [mred] unfolds them. *)
Ltac mstep :=
  lazy beta iota zeta delta
    [bind try_except ret raise get modify lift datetime_now
     call_send_request call_pre_select_tools append_message
     _log_debug _log_error _update_status result_now error_entry
     fst snd self world calls
     agent_name task_input config tool_info_dump plan_max_fail_times
     tool_call_max_fail_times messages workflow_mode rounds status debug_logs
     set_messages set_workflow_mode set_rounds set_status set_debug_logs
     negb truthy with_mode].

Ltac mstep_in H :=
  lazy beta iota zeta delta
    [bind try_except ret raise get modify lift datetime_now
     call_send_request call_pre_select_tools append_message
     _log_debug _log_error _update_status result_now error_entry
     fst snd self world calls
     agent_name task_input config tool_info_dump plan_max_fail_times
     tool_call_max_fail_times messages workflow_mode rounds status debug_logs
     set_messages set_workflow_mode set_rounds set_status set_debug_logs
     negb truthy with_mode] in H.

Ltac mred :=
  unfold run, run_body, run_handler, run_setup, begin_execution,
    finish_execution, obtain_workflow, automatic_workflow, manual_workflow,
    build_system_instruction, execute_step;
  mstep.

Ltac mred_in H :=
  unfold run, run_body, run_handler, run_setup, begin_execution,
    finish_execution, obtain_workflow, automatic_workflow, manual_workflow,
    build_system_instruction, execute_step in H;
  mstep_in H.

(** As [mred], and also unrolls the step loop over the manual template. *)
Ltac mrun :=
  unfold run, run_body, run_handler, run_setup, begin_execution,
    finish_execution, obtain_workflow, automatic_workflow, manual_workflow,
    build_system_instruction, execute_step;
  lazy beta iota zeta delta
    [bind try_except ret raise get modify lift datetime_now
     call_send_request call_pre_select_tools append_message
     _log_debug _log_error _update_status result_now error_entry
     fst snd self world calls
     agent_name task_input config tool_info_dump plan_max_fail_times
     tool_call_max_fail_times messages workflow_mode rounds status debug_logs
     set_messages set_workflow_mode set_rounds set_status set_debug_logs
     negb truthy with_mode
     execute_steps execute_step manual_template tool_use action action_type].

(** Decides the tests on a known workflow mode. *)
Ltac decide_mode :=
  repeat (progress (change (String.eqb "automatic" "manual") with false;
                    change (String.eqb "automatic" "automatic") with true;
                    change (String.eqb "manual" "manual") with true;
                    change (String.eqb "manual" "automatic") with false);
          mstep).

(** Opens a configuration into its components. *)
Ltac open_cfg c :=
  let a := fresh "a" in
  let w := fresh "w" in
  let evs := fresh "evs" in
  destruct c as [a w evs];
  destruct a as [nm task cfg tools pmax tmax ms mode rnds st logs].

Ltac open_cfg_anon c :=
  let a := fresh "a" in
  destruct c as [a ? ?];
  destruct a as [? ? ? ? ? ? ? ? ? ? ?].

Lemma never_raises_build : never_raises build_system_instruction.
Proof. unfold build_system_instruction. repeat nr_step. Qed.

Lemma never_raises_manual_workflow : never_raises manual_workflow.
Proof. unfold manual_workflow. repeat nr_step. Qed.

Lemma never_raises_automatic_workflow : never_raises automatic_workflow.
Proof. unfold automatic_workflow. repeat nr_step. Qed.

Lemma never_raises_obtain_workflow : never_raises obtain_workflow.
Proof.
  unfold obtain_workflow. apply never_raises_bind; [ apply never_raises_get | ].
  intros mode. destruct (String.eqb mode "automatic").
  - apply never_raises_bind; [ apply never_raises_automatic_workflow | ].
    intros wf. apply never_raises_bind; [ apply never_raises_modify | ].
    intros _. apply never_raises_ret.
  - apply never_raises_manual_workflow.
Qed.

Lemma never_raises_run_handler e : never_raises (run_handler e).
Proof. unfold run_handler. repeat nr_step. Qed.

Lemma never_raises_run : never_raises run.
Proof. unfold run. apply never_raises_try_except. apply never_raises_run_handler. Qed.

(** What the handler of [run] does to the configuration it is entered
    with. *)
Lemma run_handler_spec (e : exn) (c : Cfg) :
  let t1 := now (world c) in
  let t2 := now (snd t1) in
  let logs :=
    debug_logs (self c)
      ++ [mkLogEntry "debug" (status_message (status (self c)) "error") (fst t1) None None;
          mkLogEntry "error" "Error during execution" (fst t2) (Some e)
            (Some (format_exc e))] in
  run_handler e c
  = (Ok (mkRunResult (agent_name (self c))
           (Some ("Error occurred during execution: " ++ e)%string)
           (rounds (self c)) "error" (Some e) logs),
     mkCfg (set_debug_logs logs (set_status "error" (self c))) (snd t2) (calls c)).
Proof.
  open_cfg c. mred. rewrite <- app_assoc. reflexivity.
Qed.

(** *** The result of a run *)

(** [build_system_instruction] returns [False] only through its handler,
    which leaves the status ["error"]. *)
Lemma build_system_instruction_false (c cb : Cfg) :
  build_system_instruction c = (Ok false, cb) -> status (self cb) = "error".
Proof.
  open_cfg c. mred.
  destruct (config_get "description" cfg); mstep;
    [ | intros H; inversion H; reflexivity ].
  destruct tools; mstep; [ | intros H; inversion H; reflexivity ].
  destruct (String.eqb mode "manual"); mstep; [ intros H; inversion H | ].
  destruct (String.eqb mode "automatic"); mstep; intros H; inversion H; reflexivity.
Qed.

(** The two early returns of [run]. *)
Lemma run_setup_inl (c c1 : Cfg) (er : RunResult) :
  run_setup c = (Ok (inl er), c1) ->
  er = mkRunResult (agent_name (self c1)) (r_result er) (rounds (self c1))
         (status (self c1)) None (debug_logs (self c1)) /\
  ((r_status er = "error" /\
    r_result er = Some "Failed to build system instruction") \/
   (r_status er = "failed" /\
    r_result er = Some "Failed to generate a valid workflow.")).
Proof.
  open_cfg c. unfold run_setup. mstep.
  match goal with
  | |- context [build_system_instruction ?cx] =>
      destruct (build_system_instruction cx) as [[[ | ] | e] cb] eqn:Hb
  end; mstep; [ | | discriminate ].
  - match goal with
    | |- context [obtain_workflow ?cx] =>
        destruct (obtain_workflow cx) as [[wf | e] cw] eqn:Hw
    end; mstep; [ | discriminate ].
    open_cfg_anon cw. destruct wf as [[ | s wf] | ]; mstep;
      intros H; inversion H; subst;
      (split; [ reflexivity | right; split; reflexivity ]).
  - apply build_system_instruction_false in Hb.
    open_cfg_anon cb. mstep. cbn in Hb. intros H. inversion H. subst.
    split; [ reflexivity | ]. left. split; reflexivity.
Qed.

(** The normal return of [run]. *)
Lemma finish_execution_ok (c c1 : Cfg) (rr : RunResult) :
  finish_execution c = (Ok rr, c1) ->
  rr = mkRunResult (agent_name (self c1)) (r_result rr) (rounds (self c1))
         (status (self c1)) None (debug_logs (self c1)) /\
  r_status rr = "completed" /\
  exists m, last_opt (messages (self c)) = Some m /\
            r_result rr = Some (content m) /\
            messages (self c1) = messages (self c).
Proof.
  open_cfg c. mred. destruct (last_opt ms) as [m | ]; mstep;
    intros H; inversion H; subst.
  split; [ reflexivity | ]. split; [ reflexivity | ].
  exists m. repeat split.
Qed.

(** C6, as the code has it. [run] returns from every configuration, and
    the dictionary it returns always has the key [result]; the fields
    [agent_name], [rounds], [status] and [debug_logs] are those of the
    agent when [run] returns. What [result], [status] and [error] hold
    follows the way the run went. When [build_system_instruction],
    called after the prologue, returns [False]: status ["error"], the
    text ["Failed to build system instruction"], no [error]. When it
    returns [True] and the planner, called after the task message is
    appended, returns no workflow or an empty one: status ["failed"],
    the text ["Failed to generate a valid workflow."], no [error]. When
    the execution of the workflow raises [e]: status ["error"],
    [error = str(e)] and the text ["Error occurred during execution: "
    + str(e)]. When it returns: status ["completed"], no [error], and
    the content of the last message of the conversation. *)
Theorem run_result_fields :
  forall c : Cfg,
    let c1 := snd (run_prologue c) in
    let cb := snd (build_system_instruction c1) in
    let c2 := snd (append_message "user" (task_input (self cb)) cb) in
    let cw := snd (obtain_workflow c2) in
    exists rr,
      fst (run c) = Ok rr /\
      r_agent_name rr = agent_name (self (snd (run c))) /\
      r_rounds rr = rounds (self (snd (run c))) /\
      r_status rr = status (self (snd (run c))) /\
      r_debug_logs rr = debug_logs (self (snd (run c))) /\
      let caught (e : exn) :=
        r_status rr = "error" /\
        r_error rr = Some e /\
        r_result rr = Some ("Error occurred during execution: " ++ e)%string in
      match fst (build_system_instruction c1) with
      | Ok false =>
          r_status rr = "error" /\
          r_error rr = None /\
          r_result rr = Some "Failed to build system instruction"
      | Ok true =>
          match fst (obtain_workflow c2) with
          | Ok (Some (step :: rest)) =>
              match fst (run_execution (step :: rest) cw) with
              | Ok _ =>
                  r_status rr = "completed" /\
                  r_error rr = None /\
                  exists m,
                    last_opt (messages (self (snd (run c)))) = Some m /\
                    r_result rr = Some (content m)
              | Raise e => caught e
              end
          | Ok _ =>
              r_status rr = "failed" /\
              r_error rr = None /\
              r_result rr = Some "Failed to generate a valid workflow."
          | Raise e => caught e
          end
      | Raise e => caught e
      end.
Proof.
  intros c. cbv zeta. open_cfg c.
  unfold run, run_body, run_setup, run_prologue, run_execution, run_handler.
  mstep.
  destruct (build_system_instruction _) as [[[ | ] | e] cb] eqn:Hb; mstep.
  - open_cfg_anon cb. mstep.
    destruct (obtain_workflow _) as [[[[ | step rest] | ] | e] cw]; mstep;
      try (eexists; split; [ reflexivity | ]; repeat split; fail).
    destruct (begin_execution _ _) as [[[] | e] cA]; mstep;
      [ | eexists; split; [ reflexivity | ]; repeat split ].
    destruct (execute_steps _ _ _) as [[[] | e] cB]; mstep;
      [ | eexists; split; [ reflexivity | ]; repeat split ].
    destruct (finish_execution cB) as [[rr | e] cF] eqn:HF; mstep;
      [ | eexists; split; [ reflexivity | ]; repeat split ].
    destruct (finish_execution_ok _ _ _ HF) as (Hrr & Hst & m & Hm & Hres & Hmsgs).
    exists rr. split; [ reflexivity | ].
    rewrite Hrr. cbn [r_agent_name r_rounds r_status r_debug_logs r_error r_result].
    rewrite Hrr in Hst, Hres.
    cbn [r_status r_result] in Hst, Hres.
    repeat split; try assumption.
    exists m. split; [ | exact Hres ].
    change (last_opt (messages (self cF)) = Some m). rewrite Hmsgs. exact Hm.
  - apply build_system_instruction_false in Hb.
    open_cfg_anon cb. mstep. mstep_in Hb. subst.
    eexists. split; [ reflexivity | ]. repeat split.
  - eexists. split; [ reflexivity | ]. repeat split.
Qed.

(** *** The step loop *)

Lemma count_requests_snoc_request evs name q out :
  count_requests (evs ++ [EvSendRequest name q out]) = count_requests evs + 1.
Proof. rewrite count_requests_app. reflexivity. Qed.

Lemma count_requests_snoc_select evs names out :
  count_requests (evs ++ [EvPreSelectTools names out]) = count_requests evs.
Proof. rewrite count_requests_app. cbn. lia. Qed.

(** A step that returns has made one request and added one round. *)
Lemma execute_step_ok (i : nat) (step : Step) (c c' : Cfg) :
  execute_step i step c = (Ok tt, c') ->
  rounds (self c') = rounds (self c) + 1 /\
  count_requests (calls c') = count_requests (calls c) + 1 /\
  status (self c') = status (self c).
Proof.
  open_cfg c. mred. destruct (tool_use step) as [ | t ts ]; mstep.
  - destruct (send_request _ _ _) as [[r | e] w']; mstep;
      intros H; inversion H; subst; mstep.
    rewrite count_requests_snoc_request. repeat split.
  - destruct (pre_select_tools _) as [sel | e]; mstep; [ | discriminate ].
    destruct (send_request _ _ _) as [[r | e] w']; mstep;
      intros H; inversion H; subst; mstep.
    rewrite count_requests_snoc_request, count_requests_snoc_select. repeat split.
Qed.

(** A step that raises has added no round and made at most one request. *)
Lemma execute_step_raise (i : nat) (step : Step) (c c' : Cfg) (e : exn) :
  execute_step i step c = (Raise e, c') ->
  rounds (self c') = rounds (self c) /\
  count_requests (calls c') <= count_requests (calls c) + 1 /\
  status (self c') = status (self c).
Proof.
  open_cfg c. mred. destruct (tool_use step) as [ | t ts ]; mstep.
  - destruct (send_request _ _ _) as [[r | e'] w']; mstep;
      intros H; inversion H; subst; mstep.
    rewrite count_requests_snoc_request. repeat split. lia.
  - destruct (pre_select_tools _) as [sel | e']; mstep.
    + destruct (send_request _ _ _) as [[r | e''] w']; mstep;
        intros H; inversion H; subst; mstep.
      rewrite count_requests_snoc_request, count_requests_snoc_select.
      repeat split. lia.
    + intros H; inversion H; subst; mstep.
      rewrite count_requests_snoc_select. repeat split. lia.
Qed.

Lemma execute_steps_cons i step rest c :
  execute_steps i (step :: rest) c
  = bind (execute_step i step) (fun _ => execute_steps (S i) rest) c.
Proof. reflexivity. Qed.

Lemma execute_steps_ok (l : Workflow) :
  forall (i : nat) (c c' : Cfg),
    execute_steps i l c = (Ok tt, c') ->
    rounds (self c') = rounds (self c) + length l /\
    count_requests (calls c') = count_requests (calls c) + length l /\
    status (self c') = status (self c).
Proof.
  induction l as [ | step rest IH ]; intros i c c' H.
  - inversion H; subst. cbn. repeat split; lia.
  - rewrite execute_steps_cons in H.
    destruct (execute_step i step c) as [[[] | e] c1] eqn:H1.
    + rewrite (bind_eq_ok _ _ _ _ _ H1) in H.
      destruct (execute_step_ok _ _ _ _ H1) as (Hr & Hc & Hs).
      destruct (IH _ _ _ H) as (Hr' & Hc' & Hs').
      cbn [length]. repeat split; [ lia | lia | congruence ].
    + rewrite (bind_eq_raise _ _ _ _ _ H1) in H. discriminate.
Qed.

(** If the first [k] steps return and step [k] (counted from 0) raises,
    the loop raises from the configuration in which that step raised: no
    later step is started. *)
Lemma execute_steps_fail_at (k : nat) :
  forall (wf : Workflow) (i : nat) (step : Step) (c c' c2 : Cfg) (e : exn),
    nth_error wf k = Some step ->
    execute_steps i (firstn k wf) c = (Ok tt, c') ->
    execute_step (i + k) step c' = (Raise e, c2) ->
    execute_steps i wf c = (Raise e, c2).
Proof.
  induction k as [ | k IH ]; intros wf i step c c' c2 e Hnth Hpre Hfail.
  - destruct wf as [ | s rest ]; [ discriminate | ].
    cbn in Hnth, Hpre. inversion Hnth; subst. inversion Hpre; subst.
    rewrite Nat.add_0_r in Hfail.
    rewrite execute_steps_cons. apply bind_eq_raise. exact Hfail.
  - destruct wf as [ | s rest ]; [ discriminate | ].
    cbn [nth_error] in Hnth. cbn [firstn] in Hpre.
    rewrite execute_steps_cons in Hpre. rewrite execute_steps_cons.
    destruct (execute_step i s c) as [[[] | e1] c1] eqn:H1.
    + rewrite (bind_eq_ok _ _ _ _ _ H1) in Hpre.
      rewrite (bind_eq_ok _ _ _ _ _ H1).
      apply (IH rest (S i) step c1 c' c2 e Hnth Hpre).
      rewrite Nat.add_succ_comm. exact Hfail.
    + rewrite (bind_eq_raise _ _ _ _ _ H1) in Hpre. discriminate.
Qed.

(** *** Rounds and requests of the planning phase *)

(** When the planning loop returns, every request it made was followed
    by an increment of [rounds]. *)
Lemma planning_loop_rounds (n : nat) :
  forall (i : nat) (c c' : Cfg) (wf : option Workflow),
    planning_loop n i c = (Ok wf, c') ->
    rounds (self c') + count_requests (calls c)
    = rounds (self c) + count_requests (calls c').
Proof.
  induction n as [ | n IH ]; intros i c c' wf.
  - open_cfg c. cbn [planning_loop]. mstep. intros H. inversion H; subst. reflexivity.
  - open_cfg c. cbn [planning_loop]. mstep.
    destruct (send_request _ _ _) as [[r | e] w']; mstep; [ | discriminate ].
    destruct (check_workflow r) as [[[ | s l] | ] | e]; mstep.
    + intros H. apply IH in H. mstep_in H.
      rewrite count_requests_snoc_request in H. mstep. lia.
    + intros H. inversion H; subst. mstep.
      rewrite count_requests_snoc_request. lia.
    + intros H. apply IH in H. mstep_in H.
      rewrite count_requests_snoc_request in H. mstep. lia.
    + discriminate.
Qed.

Lemma obtain_workflow_rounds (c c' : Cfg) (wf : option Workflow) :
  obtain_workflow c = (Ok wf, c') ->
  truthy wf = true ->
  rounds (self c') + count_requests (calls c)
  = rounds (self c) + count_requests (calls c') /\
  (workflow_mode (self c) <> "automatic" ->
   calls c' = calls c /\ rounds (self c') = rounds (self c) /\
   wf = Some manual_template).
Proof.
  open_cfg c. mred. destruct (String.eqb mode "automatic") eqn:Hmode.
  - destruct (planning_loop pmax 0 _) as [[wf' | e] cp] eqn:Hloop; mstep.
    + intros H Ht. inversion H; subst. apply planning_loop_rounds in Hloop.
      open_cfg_anon cp. mstep_in Hloop. mstep. split; [ exact Hloop | ].
      apply String.eqb_eq in Hmode. intros Hne. contradiction.
    + intros H Ht. inversion H; subst. discriminate.
  - mstep. intros H Ht. inversion H; subst. mstep. repeat split.
Qed.

(** [build_system_instruction] makes no request and leaves [rounds] and
    the mode alone. *)
Lemma build_system_instruction_frame (c : Cfg) :
  rounds (self (snd (build_system_instruction c))) = rounds (self c) /\
  calls (snd (build_system_instruction c)) = calls c /\
  workflow_mode (self (snd (build_system_instruction c))) = workflow_mode (self c).
Proof.
  open_cfg c. mred.
  destruct (config_get "description" cfg); mstep; [ | repeat split ].
  destruct tools; mstep; [ | repeat split ].
  destruct (String.eqb mode "manual"); mstep; [ repeat split | ].
  destruct (String.eqb mode "automatic"); mstep; repeat split.
Qed.

(** When [run] gets to a workflow, [rounds] has grown by the number of
    requests made so far: the planning attempts in automatic mode, none
    otherwise. *)
Lemma run_setup_inr_rounds (c c1 : Cfg) (wf : Workflow) :
  run_setup c = (Ok (inr wf), c1) ->
  rounds (self c1) + count_requests (calls c)
  = rounds (self c) + count_requests (calls c1) /\
  (workflow_mode (self c) <> "automatic" ->
   calls c1 = calls c /\ rounds (self c1) = rounds (self c) /\
   wf = manual_template).
Proof.
  open_cfg c. unfold run_setup. mstep.
  match goal with
  | |- context [build_system_instruction ?cx] =>
      pose proof (build_system_instruction_frame cx) as (Hr & Hc & Hm);
      destruct (build_system_instruction cx) as [[[ | ] | e] cb]
  end; mstep; [ | discriminate | discriminate ].
  open_cfg_anon cb. mstep_in Hr. mstep_in Hc. mstep_in Hm. subst.
  match goal with
  | |- context [obtain_workflow ?cx] =>
      destruct (obtain_workflow cx) as [[o | e] cw] eqn:Hw
  end; mstep; [ | discriminate ].
  destruct (truthy o) eqn:Ht; [ | destruct o as [[ | ? ?] | ]; discriminate ].
  destruct (obtain_workflow_rounds _ _ _ Hw Ht) as [Hrounds Hmanual].
  mstep_in Hrounds. mstep_in Hmanual.
  destruct o as [[ | s l] | ]; try discriminate. mstep.
  intros H. inversion H; subst. split; [ exact Hrounds | ].
  intros Hne. destruct (Hmanual Hne) as (H1 & H2 & H3).
  inversion H3. repeat split; assumption.
Qed.

(** *** A failing step *)

Lemma begin_execution_spec (wf : Workflow) (c : Cfg) :
  begin_execution wf c = (Ok tt, snd (begin_execution wf c)) /\
  rounds (self (snd (begin_execution wf c))) = rounds (self c) /\
  calls (snd (begin_execution wf c)) = calls c /\
  status (self (snd (begin_execution wf c))) = "executing_workflow" /\
  messages (self (snd (begin_execution wf c)))
  = messages (self c) ++ [thinking_message wf].
Proof. repeat split. Qed.

(** C1, as the code has it. Let [run] have obtained a workflow, let its
    first [k] steps have returned and let step [k + 1] raise [e]. Then
    the [try] block of [run] raises [e] from the configuration in which
    the step raised: nothing recovers it on the way, no later step is
    started and no further call is made. The handler of
    [run] sets the status to ["error"], appends to [debug_logs] the status
    change and one error entry carrying [str(e)] and the stack trace, and
    [run] returns a failure result with [error = str(e)] instead of
    raising. [rounds] is its value when the loop was entered plus [k]:
    over the whole run it has grown by the planning requests plus [k],
    and outside automatic mode, where planning makes no request, by
    exactly [k]. *)
Theorem step_failure_is_caught_by_run :
  forall (c0 c1 c' c2 : Cfg) (wf : Workflow) (k : nat) (step : Step) (e : exn),
    run_setup c0 = (Ok (inr wf), c1) ->
    execute_steps 0 (firstn k wf) (snd (begin_execution wf c1)) = (Ok tt, c') ->
    nth_error wf k = Some step ->
    execute_step k step c' = (Raise e, c2) ->
    exists rr t1 t2,
      run_body c0 = (Raise e, c2) /\
      run c0 = (Ok rr, snd (run_handler e c2)) /\
      r_status rr = "error" /\
      status (self (snd (run c0))) = "error" /\
      r_error rr = Some e /\
      r_result rr = Some ("Error occurred during execution: " ++ e)%string /\
      r_rounds rr = rounds (self c1) + k /\
      r_rounds rr + count_requests (calls c0)
      = rounds (self c0) + count_requests (calls c1) + k /\
      (workflow_mode (self c0) <> "automatic" ->
       r_rounds rr = rounds (self c0) + k) /\
      r_debug_logs rr
      = debug_logs (self c2)
          ++ [mkLogEntry "debug" "Status changed: executing_workflow -> error" t1
                None None;
              mkLogEntry "error" "Error during execution" t2 (Some e)
                (Some (format_exc e))] /\
      debug_logs (self (snd (run c0))) = r_debug_logs rr /\
      calls (snd (run c0)) = calls c2 /\
      messages (self (snd (run c0))) = messages (self c2) /\
      count_requests (calls c2) <= count_requests (calls c1) + k + 1.
Proof.
  intros c0 c1 c' c2 wf k step e Hsetup Hpre Hnth Hfail.
  destruct (begin_execution_spec wf c1) as (HA & HAr & HAc & HAs & _).
  assert (Hloop : execute_steps 0 wf (snd (begin_execution wf c1)) = (Raise e, c2))
    by (apply (execute_steps_fail_at k wf 0 step _ c' c2 e Hnth Hpre); exact Hfail).
  assert (Hbody : run_body c0 = (Raise e, c2)).
  { unfold run_body. rewrite (bind_eq_ok _ _ _ _ _ Hsetup).
    rewrite (bind_eq_ok _ _ _ _ _ HA).
    apply bind_eq_raise. exact Hloop. }
  assert (Hk : length (firstn k wf) = k).
  { apply firstn_length_le. apply Nat.lt_le_incl. apply nth_error_Some. congruence. }
  destruct (execute_steps_ok _ _ _ _ Hpre) as (Hr1 & Hc1 & Hs1).
  destruct (execute_step_raise _ _ _ _ _ Hfail) as (Hr2 & Hc2 & Hs2).
  destruct (run_setup_inr_rounds _ _ _ Hsetup) as (Hr0 & Hmanual).
  rewrite Hk in Hr1, Hc1. rewrite HAc in Hc1.
  assert (Hst : status (self c2) = "executing_workflow") by congruence.
  unfold run. rewrite (try_except_eq_raise _ _ _ _ _ Hbody).
  rewrite run_handler_spec. cbv zeta. cbn [fst snd].
  eexists. exists (fst (now (world c2))), (fst (now (snd (now (world c2))))).
  split; [ exact Hbody | ].
  split; [ reflexivity | ]. cbn.
  unfold status_message. rewrite Hst.
  repeat split; try lia.
  intros Hne. destruct (Hmanual Hne) as (_ & Hsame & _). lia.
Qed.

(** *** A complete manual run *)

(** Splits on the outcome of the request at which evaluation is stuck. *)
Ltac split_send :=
  match goal with
  | |- context [send_request ?n ?q ?w] =>
      let r := fresh "reply" in
      let w' := fresh "w" in
      destruct (send_request n q w) as [r w'];
      destruct r as [r | r]; lazy
  end.

(** C3. A run of a newly constructed agent (manual mode) whose
    configuration has a description, whose tool information serialises
    and whose calls to the collaborators all return: the run makes the
    tool selection of step 1 and three language-model requests, one per
    step of the template and none for planning; it returns status
    ["completed"], [rounds = 3] and as [result] the content of the last
    message of the conversation, which is the assistant message holding
    the third reply. *)
Theorem manual_run_completes :
  forall (name task : string) (cfg : list (string * list string))
         (d : list string) (dump : string) (w : World),
    config_get "description" cfg = Some d ->
    forallb event_ok (calls (snd (run (init name task cfg (Ok dump) w)))) = true ->
    exists rr ts q1 q2 q3 a1 a2 a3,
      fst (run (init name task cfg (Ok dump) w)) = Ok rr /\
      r_status rr = "completed" /\
      r_rounds rr = 3 /\
      r_error rr = None /\
      calls (snd (run (init name task cfg (Ok dump) w)))
      = [EvPreSelectTools ["demo_author/arxiv"] (Ok ts);
         EvSendRequest name q1 (Ok a1);
         EvSendRequest name q2 (Ok a2);
         EvSendRequest name q3 (Ok a3)] /\
      count_requests (calls (snd (run (init name task cfg (Ok dump) w)))) = 3 /\
      map q_action_type [q1; q2; q3] = [Some "tool_use"; Some "chat"; Some "chat"] /\
      map q_tools [q1; q2; q3] = [Some ts; None; None] /\
      map q_message_return_type [q1; q2; q3] = [None; None; None] /\
      last_opt (messages (self (snd (run (init name task cfg (Ok dump) w)))))
      = Some (mkMessage "assistant" a3) /\
      r_result rr = Some a3.
Proof.
  intros name task cfg d dump w.
  lazy -[config_get].
  destruct (config_get _ cfg) as [d' | ]; [ intros [= ->] | discriminate ].
  lazy.
  destruct (pre_select_tools _) as [ts | e]; lazy; [ | discriminate ].
  split_send; [ | discriminate ].
  split_send; [ | discriminate ].
  split_send; [ | discriminate ].
  intros _. do 8 eexists. repeat split.
Qed.

(** C7. In a run of a newly constructed agent (manual mode) that ends
    with status ["completed"], the status changes recorded in
    [debug_logs], read in append order, are exactly the seven
    transitions from [initialized] to [completed], each starting where
    the previous one ended; the whole log, message by message, shows
    where they stand among the other entries. *)
Theorem manual_run_transitions :
  forall (name task : string) (cfg : list (string * list string))
         (tools : Result string) (w : World) (rr : RunResult),
    fst (run (init name task cfg tools w)) = Ok rr ->
    r_status rr = "completed" ->
    transitions (r_debug_logs rr)
    = [("initialized", "running");
       ("running", "building_system_instruction");
       ("building_system_instruction", "system_instruction_built");
       ("system_instruction_built", "generating_workflow");
       ("generating_workflow", "workflow_generated");
       ("workflow_generated", "executing_workflow");
       ("executing_workflow", "completed")] /\
    replay "initialized" (transitions (r_debug_logs rr))
    = Some ["initialized"; "running"; "building_system_instruction";
            "system_instruction_built"; "generating_workflow";
            "workflow_generated"; "executing_workflow"; "completed"] /\
    map log_message (r_debug_logs rr)
    = [("MathAgent initialized with name: " ++ name ++ ", task: " ++ task)%string;
       "Initial status: initialized";
       "Status changed: initialized -> running";
       ("Starting run with task: " ++ task)%string;
       "Status changed: running -> building_system_instruction";
       "Status changed: building_system_instruction -> system_instruction_built";
       "Status changed: system_instruction_built -> generating_workflow";
       "Status changed: generating_workflow -> workflow_generated";
       "Status changed: workflow_generated -> executing_workflow";
       "Executing step 1: Search for relevant mathematical concepts and formulas";
       "Executing step 2: Analyze the mathematical problem and provide solution steps";
       "Executing step 3: Calculate and verify the final answer";
       "Status changed: executing_workflow -> completed"] /\
    debug_logs (self (snd (run (init name task cfg tools w)))) = r_debug_logs rr.
Proof.
  intros name task cfg tools w rr.
  lazy -[config_get].
  destruct (config_get _ cfg) as [d | ]; lazy;
    [ | intros H; injection H as <-; lazy; discriminate ].
  destruct tools as [dump | e]; lazy;
    [ | intros H; injection H as <-; lazy; discriminate ].
  destruct (pre_select_tools _) as [ts | e]; lazy;
    [ | intros H; injection H as <-; lazy; discriminate ].
  split_send; [ | intros H; injection H as <-; lazy; discriminate ].
  split_send; [ | intros H; injection H as <-; lazy; discriminate ].
  split_send; [ | intros H; injection H as <-; lazy; discriminate ].
  intros H; injection H as <-. lazy. intros _. repeat split.
Qed.

(** *** The conversation *)

Lemma extends_refl {A : Type} (l : list A) : extends l l.
Proof. exists []. symmetry. apply app_nil_r. Qed.

Lemma extends_app {A : Type} (l tl : list A) : extends l (l ++ tl).
Proof. exists tl. reflexivity. Qed.

Lemma extends_trans {A : Type} (l1 l2 l3 : list A) :
  extends l1 l2 -> extends l2 l3 -> extends l1 l3.
Proof.
  intros [t1 ->] [t2 ->]. exists (t1 ++ t2). symmetry. apply app_assoc.
Qed.

Lemma firstn_1_snoc_app {A : Type} (l : list A) (x : A) (tl : list A) :
  firstn 1 ((l ++ [x]) ++ tl) = firstn 1 (l ++ [x]).
Proof. destruct l; reflexivity. Qed.

Lemma firstn_1_extends {A : Type} (m0 : A) (rest l : list A) :
  extends (m0 :: rest) l -> firstn 1 l = [m0].
Proof. intros [tl ->]. reflexivity. Qed.

Ltac solve_extends :=
  unfold extends;
  first [ exists []; rewrite app_nil_r; reflexivity
        | rewrite <- ?app_assoc; eexists; reflexivity ].

(** The planning loop only appends to the conversation. *)
Lemma planning_loop_messages (n : nat) :
  forall (i : nat) (c : Cfg),
    extends (messages (self c)) (messages (self (snd (planning_loop n i c)))).
Proof.
  induction n as [ | n IH ]; intros i c.
  - open_cfg c. cbn [planning_loop]. mstep. apply extends_refl.
  - open_cfg c. cbn [planning_loop]. mstep.
    destruct (send_request _ _ _) as [[r | e] w']; mstep; [ | apply extends_refl ].
    destruct (check_workflow r) as [[[ | s l] | ] | e]; mstep;
      try apply extends_refl.
    + match goal with
      | |- context [planning_loop n (S i) ?cx] => pose proof (IH (S i) cx) as H
      end.
      mstep_in H. eapply extends_trans; [ apply extends_app | exact H ].
    + match goal with
      | |- context [planning_loop n (S i) ?cx] => pose proof (IH (S i) cx) as H
      end.
      mstep_in H. eapply extends_trans; [ apply extends_app | exact H ].
Qed.

Lemma automatic_workflow_messages (c : Cfg) :
  extends (messages (self c)) (messages (self (snd (automatic_workflow c)))).
Proof.
  open_cfg c. mred.
  match goal with
  | |- context [planning_loop pmax 0 ?cx] =>
      pose proof (planning_loop_messages pmax 0 cx) as H;
      destruct (planning_loop pmax 0 cx) as [[o | e] cp]
  end; open_cfg_anon cp; mstep_in H; mstep; exact H.
Qed.

(** In automatic mode [obtain_workflow] returns what the planner
    returned and leaves the first entry of the planner's conversation. *)
Lemma obtain_workflow_automatic (c : Cfg) :
  workflow_mode (self c) = "automatic" ->
  fst (obtain_workflow c) = fst (automatic_workflow c) /\
  messages (self (snd (obtain_workflow c)))
  = firstn 1 (messages (self (snd (automatic_workflow c)))).
Proof.
  intros Hmode. unfold obtain_workflow.
  rewrite (bind_eq_ok (get workflow_mode) _ c _ c eq_refl).
  rewrite Hmode. change (String.eqb "automatic" "automatic") with true. cbv iota.
  destruct (automatic_workflow c) as [[o | e] cp] eqn:Haw.
  - rewrite (bind_eq_ok _ _ _ _ _ Haw). split; reflexivity.
  - destruct (never_raises_automatic_workflow c) as [o Ho].
    rewrite Haw in Ho. discriminate.
Qed.

(** Outside automatic mode it is the manual planner, which leaves the
    conversation as it is. *)
Lemma obtain_workflow_manual (c : Cfg) :
  workflow_mode (self c) <> "automatic" ->
  obtain_workflow c = manual_workflow c /\
  messages (self (snd (obtain_workflow c))) = messages (self c).
Proof.
  intros Hmode. apply String.eqb_neq in Hmode.
  open_cfg c. unfold obtain_workflow. mstep. mstep_in Hmode. rewrite Hmode.
  split; reflexivity.
Qed.

Lemma last_opt_snoc {A : Type} (l : list A) (x : A) : last_opt (l ++ [x]) = Some x.
Proof. unfold last_opt. rewrite rev_app_distr. reflexivity. Qed.

Lemma planning_loop_succ (n i : nat) (c : Cfg) :
  planning_loop (S n) i c
  = bind (get messages) (fun ms =>
      bind (call_send_request (planning_query ms)) (fun response =>
        bind (lift (check_workflow response)) (fun workflow =>
          bind (modify (fun a => set_rounds (rounds a + 1) a)) (fun _ =>
            if truthy workflow then
              bind (_update_status "workflow_generated") (fun _ => ret workflow)
            else
              bind (modify (fun a => set_messages (messages a ++ [fail_notice i]) a))
                (fun _ => planning_loop n (S i)))))) c.
Proof. reflexivity. Qed.

(** The planning loop only appends to the record of calls. *)
Lemma planning_loop_calls (n : nat) :
  forall (i : nat) (c : Cfg),
    extends (calls c) (calls (snd (planning_loop n i c))).
Proof.
  induction n as [ | n IH ]; intros i c.
  - open_cfg c. cbn [planning_loop]. mstep. apply extends_refl.
  - open_cfg c. cbn [planning_loop]. mstep.
    destruct (send_request _ _ _) as [[r | e] w']; mstep; [ | apply extends_app ].
    destruct (check_workflow r) as [[[ | s l] | ] | e]; mstep;
      try apply extends_app.
    + match goal with
      | |- context [planning_loop n (S i) ?cx] => pose proof (IH (S i) cx) as H
      end.
      mstep_in H. eapply extends_trans; [ apply extends_app | exact H ].
    + match goal with
      | |- context [planning_loop n (S i) ?cx] => pose proof (IH (S i) cx) as H
      end.
      mstep_in H. eapply extends_trans; [ apply extends_app | exact H ].
Qed.

(** The conversation at the end of [run_setup] in automatic mode: when
    the instruction can be built, planning runs and only the first entry
    is left, whatever the planner returned; otherwise [run_setup]
    returns the failure result before planning. *)
Lemma run_setup_automatic_messages (c : Cfg) :
  workflow_mode (self c) = "automatic" ->
  match config_get "description" (config (self c)), tool_info_dump (self c) with
  | Some d, Ok dump =>
      (exists x, fst (run_setup c) = Ok x) /\
      messages (self (snd (run_setup c)))
      = firstn 1 (messages (self c)
                    ++ [mkMessage "system" (String.concat "" [String.concat "" d])])
  | _, _ => exists er, fst (run_setup c) = Ok (inl er)
  end.
Proof.
  intros Hmode. open_cfg c. mstep_in Hmode. subst mode. mred.
  destruct (config_get "description" cfg) as [d | ]; mstep;
    [ | destruct tools; eexists; reflexivity ].
  destruct tools as [dump | e]; mstep; [ | eexists; reflexivity ].
  decide_mode.
  match goal with
  | |- context [planning_loop pmax 0 ?cx] =>
      pose proof (planning_loop_messages pmax 0 cx) as [tl Htl];
      destruct (planning_loop pmax 0 cx) as [[o | e] cp]
  end; open_cfg_anon cp; mstep_in Htl; subst; mstep.
  - destruct o as [[ | s l] | ]; mstep;
      (split; [ eexists; reflexivity | destruct ms; reflexivity ]).
  - split; [ eexists; reflexivity | destruct ms; reflexivity ].
Qed.

(** In manual mode the conversation at the end of [run] extends the one
    at its start. *)
Lemma run_manual_messages (c : Cfg) :
  workflow_mode (self c) = "manual" ->
  extends (messages (self c)) (messages (self (snd (run c)))).
Proof.
  intros Hmode. open_cfg c. mstep_in Hmode. subst mode. mrun.
  destruct (config_get "description" cfg) as [d | ]; mrun; [ | solve_extends ].
  destruct tools as [dump | e]; mrun; [ | solve_extends ].
  decide_mode. mrun.
  destruct (pre_select_tools _) as [sel | e]; mrun; [ | solve_extends ].
  destruct (send_request _ _ _) as [[r1 | e] w1]; mrun; [ | solve_extends ].
  destruct (send_request _ _ _) as [[r2 | e] w2]; mrun; [ | solve_extends ].
  destruct (send_request _ _ _) as [[r3 | e] w3]; mrun; [ | solve_extends ].
  rewrite last_opt_snoc. mrun. solve_extends.
Qed.

(** C4. In automatic mode [obtain_workflow] cuts the conversation down
    to the first entry of what the planner left, so when [run] has
    obtained a workflow the conversation is its first entry alone, and
    the step loop is entered with that entry followed by the workflow
    summary. In manual mode [obtain_workflow] leaves the conversation
    as it is, and the conversation at the end of [run] extends the one
    at its start. *)
Theorem truncation_only_in_automatic_mode :
  forall c : Cfg,
    (workflow_mode (self c) = "automatic" ->
       fst (obtain_workflow c) = fst (automatic_workflow c) /\
       messages (self (snd (obtain_workflow c)))
       = firstn 1 (messages (self (snd (automatic_workflow c)))) /\
       (forall m0 rest, messages (self c) = m0 :: rest ->
                        messages (self (snd (obtain_workflow c))) = [m0]) /\
       (forall wf c1,
          run_setup c = (Ok (inr wf), c1) ->
          exists d,
            config_get "description" (config (self c)) = Some d /\
            messages (self c1)
            = firstn 1 (messages (self c)
                          ++ [mkMessage "system" (String.concat "" [String.concat "" d])]) /\
            messages (self (snd (begin_execution wf c1)))
            = messages (self c1) ++ [thinking_message wf])) /\
    (workflow_mode (self c) = "manual" ->
       obtain_workflow c = manual_workflow c /\
       messages (self (snd (obtain_workflow c))) = messages (self c) /\
       extends (messages (self c)) (messages (self (snd (run c))))).
Proof.
  intros c. split; intros Hmode.
  - destruct (obtain_workflow_automatic c Hmode) as [Hres Hmsgs].
    split; [ exact Hres | ]. split; [ exact Hmsgs | ]. split.
    + intros m0 rest Hms. rewrite Hmsgs.
      apply (firstn_1_extends m0 rest). rewrite <- Hms.
      apply automatic_workflow_messages.
    + intros wf c1 Hsetup.
      pose proof (run_setup_automatic_messages c Hmode) as H.
      rewrite Hsetup in H. cbn [fst snd] in H.
      destruct (config_get "description" (config (self c))) as [d | ];
        [ | destruct H as [er H]; discriminate ].
      destruct (tool_info_dump (self c)) as [dump | e];
        [ | destruct H as [er H]; discriminate ].
      exists d. destruct H as [_ H]. repeat split. exact H.
  - assert (Hne : workflow_mode (self c) <> "automatic")
      by (rewrite Hmode; discriminate).
    destruct (obtain_workflow_manual c Hne) as [H1 H2].
    repeat split; [ exact H1 | exact H2 | apply run_manual_messages; exact Hmode ].
Qed.

(** C5. A run of a newly constructed agent switched to automatic mode
    whose instruction can be built: when [run_setup] is over, that is
    after planning and whatever planning gave, the conversation is the
    system message alone. The task message, which the first planning
    request still carried, is gone: the step loop is entered with the
    system message and the workflow summary, and a run that ends for
    want of a workflow ends with the system message alone. *)
Theorem automatic_planning_leaves_system_message :
  forall (name task : string) (cfg : list (string * list string))
         (d : list string) (dump : string) (w : World),
    config_get "description" cfg = Some d ->
    let c0 := with_mode "automatic" (init name task cfg (Ok dump) w) in
    let sys := mkMessage "system" (String.concat "" [String.concat "" d]) in
    let plan :=
      mkMessage "user"
        ("You are given the available tools from the tool list: " ++ dump
           ++ plan_instruction_tail)%string in
    (exists x, fst (run_setup c0) = Ok x) /\
    messages (self (snd (run_setup c0))) = [sys] /\
    ~ In (mkMessage "user" task) (messages (self (snd (run_setup c0)))) /\
    (exists out evs,
       calls (snd (run_setup c0))
       = EvSendRequest name (planning_query [sys; plan; mkMessage "user" task]) out
           :: evs) /\
    (forall wf,
       fst (run_setup c0) = Ok (inr wf) ->
       messages (self (snd (begin_execution wf (snd (run_setup c0)))))
       = [sys; thinking_message wf]) /\
    (forall er,
       fst (run_setup c0) = Ok (inl er) ->
       messages (self (snd (run c0))) = [sys]).
Proof.
  intros name task cfg d dump w Hd c0 sys plan.
  assert (Hmode : workflow_mode (self c0) = "automatic") by reflexivity.
  pose proof (run_setup_automatic_messages c0 Hmode) as H.
  change (config (self c0)) with cfg in H. rewrite Hd in H.
  change (tool_info_dump (self c0)) with (Ok dump) in H.
  change (messages (self c0)) with (@nil Message) in H.
  destruct H as [Hret Hmsgs]. cbn [app firstn] in Hmsgs. fold sys in Hmsgs.
  split; [ exact Hret | ]. split; [ exact Hmsgs | ]. split.
  { rewrite Hmsgs. intros [Hin | []]. discriminate Hin. }
  split.
  { subst c0 sys plan. unfold init. mred. rewrite Hd. mstep.
    decide_mode.
    rewrite planning_loop_succ. mstep.
    destruct (send_request _ _ _) as [[r | e] w']; mstep;
      [ | eexists; eexists; reflexivity ].
    destruct (check_workflow r) as [[[ | s l] | ] | e]; mstep;
      try (eexists; eexists; reflexivity).
    - match goal with
      | |- context [planning_loop 2 1 ?cx] =>
          pose proof (planning_loop_calls 2 1 cx) as [tl Htl];
          destruct (planning_loop 2 1 cx) as [[o | e] cp]
      end; open_cfg_anon cp; mstep_in Htl; subst; mstep;
        [ destruct o as [[ | ? ?] | ]; mstep | ];
        eexists; eexists; reflexivity.
    - match goal with
      | |- context [planning_loop 2 1 ?cx] =>
          pose proof (planning_loop_calls 2 1 cx) as [tl Htl];
          destruct (planning_loop 2 1 cx) as [[o | e] cp]
      end; open_cfg_anon cp; mstep_in Htl; subst; mstep;
        [ destruct o as [[ | ? ?] | ]; mstep | ];
        eexists; eexists; reflexivity. }
  split.
  - intros wf _. 
    destruct (begin_execution_spec wf (snd (run_setup c0))) as (_ & _ & _ & _ & Hm).
    rewrite Hm, Hmsgs. reflexivity.
  - intros er Her. unfold run, run_body.
    destruct (run_setup c0) as [r c1] eqn:Hsetup. cbn [fst snd] in *. subst r.
    rewrite (try_except_eq_ok _ _ c0 er c1).
    + exact Hmsgs.
    + rewrite (bind_eq_ok _ _ _ _ _ Hsetup). reflexivity.
Qed.

(** *** What a run never undoes *)

Lemma grows_refl (c : Cfg) : grows c c.
Proof. unfold grows. repeat split; try apply extends_refl; lia. Qed.

Lemma count_requests_extends (l1 l2 : list Event) :
  extends l1 l2 -> count_requests l1 <= count_requests l2.
Proof. intros [tl ->]. rewrite count_requests_app. lia. Qed.

Lemma grows_trans (c1 c2 c3 : Cfg) : grows c1 c2 -> grows c2 c3 -> grows c1 c3.
Proof.
  unfold grows.
  intros (A1 & A2 & A3 & A4 & A5 & A6 & A7 & A8 & A9 & A10)
         (B1 & B2 & B3 & B4 & B5 & B6 & B7 & B8 & B9 & B10).
  repeat split; try congruence; try (eapply extends_trans; eassumption); lia.
Qed.

Lemma keeps_ret {A : Type} (a : A) : keeps (ret a).
Proof. intros c. apply grows_refl. Qed.

Lemma keeps_raise {A : Type} (e : exn) : keeps (@raise A e).
Proof. intros c. apply grows_refl. Qed.

Lemma keeps_get {A : Type} (f : Agent -> A) : keeps (get f).
Proof. intros c. apply grows_refl. Qed.

Lemma keeps_lift {A : Type} (r : Result A) : keeps (lift r).
Proof. intros c. apply grows_refl. Qed.

Lemma keeps_bind {A B : Type} (m : M A) (k : A -> M B) :
  keeps m -> (forall a, keeps (k a)) -> keeps (bind m k).
Proof.
  intros Hm Hk c. specialize (Hm c). unfold bind.
  destruct (m c) as [[a | e] c1]; cbn [snd] in Hm; [ | exact Hm ].
  eapply grows_trans; [ exact Hm | apply Hk ].
Qed.

Lemma keeps_try_except {A : Type} (m : M A) (h : exn -> M A) :
  keeps m -> (forall e, keeps (h e)) -> keeps (try_except m h).
Proof.
  intros Hm Hh c. specialize (Hm c). unfold try_except.
  destruct (m c) as [[a | e] c1]; cbn [snd] in Hm; [ exact Hm | ].
  eapply grows_trans; [ exact Hm | apply Hh ].
Qed.

(** Closes [grows] between two explicit configurations. *)
Ltac grows_now :=
  unfold grows; mstep;
  rewrite ?count_requests_snoc_request, ?count_requests_snoc_select;
  repeat split;
  first [ lia | apply extends_refl | apply extends_app | solve_extends ].

Lemma keeps_datetime_now : keeps datetime_now.
Proof. intros c. open_cfg_anon c. grows_now. Qed.

Lemma keeps_log_debug msg : keeps (_log_debug msg).
Proof. intros c. open_cfg_anon c. grows_now. Qed.

Lemma keeps_log_error msg err : keeps (_log_error msg err).
Proof. intros c. open_cfg_anon c. grows_now. Qed.

Lemma keeps_update_status st : keeps (_update_status st).
Proof. intros c. open_cfg_anon c. grows_now. Qed.

Lemma keeps_set_messages (f : list Message -> list Message) :
  keeps (modify (fun a => set_messages (f (messages a)) a)).
Proof. intros c. open_cfg_anon c. grows_now. Qed.

Lemma keeps_append_message r txt : keeps (append_message r txt).
Proof. intros c. open_cfg_anon c. grows_now. Qed.

Lemma keeps_result_now text err : keeps (result_now text err).
Proof. intros c. open_cfg_anon c. grows_now. Qed.

Ltac keeps_step :=
  lazymatch goal with
  | |- keeps (bind _ _) => apply keeps_bind; [ | intros ? ]
  | |- keeps (try_except _ _) => apply keeps_try_except; [ | intros ? ]
  | |- keeps (_log_error _ _) => apply keeps_log_error
  | |- keeps (_log_debug _) => apply keeps_log_debug
  | |- keeps (_update_status _) => apply keeps_update_status
  | |- keeps (append_message _ _) => apply keeps_append_message
  | |- keeps (result_now _ _) => apply keeps_result_now
  | |- keeps (get _) => apply keeps_get
  | |- keeps (lift _) => apply keeps_lift
  | |- keeps (ret _) => apply keeps_ret
  | |- keeps (raise _) => apply keeps_raise
  | |- keeps datetime_now => apply keeps_datetime_now
  | |- keeps (if ?b then _ else _) => destruct b
  end.

Lemma keeps_build : keeps build_system_instruction.
Proof.
  intros c. open_cfg c. mred.
  destruct (config_get "description" cfg); mstep; [ | grows_now ].
  destruct tools; mstep; [ | grows_now ].
  destruct (String.eqb mode "manual"); mstep; [ grows_now | ].
  destruct (String.eqb mode "automatic"); grows_now.
Qed.

Lemma keeps_manual_workflow : keeps manual_workflow.
Proof. unfold manual_workflow. repeat keeps_step. Qed.

Lemma keeps_execute_step i step : keeps (execute_step i step).
Proof.
  intros c. open_cfg c. mred. destruct (tool_use step) as [ | t ts ]; mstep.
  - destruct (send_request _ _ _) as [[r | e] w']; grows_now.
  - destruct (pre_select_tools _) as [sel | e]; mstep; [ | grows_now ].
    destruct (send_request _ _ _) as [[r | e] w']; grows_now.
Qed.

Lemma keeps_execute_steps (workflow : Workflow) :
  forall i, keeps (execute_steps i workflow).
Proof.
  induction workflow as [ | step rest IH ]; intros i.
  - apply keeps_ret.
  - cbn [execute_steps]. apply keeps_bind; [ apply keeps_execute_step | ].
    intros _. apply IH.
Qed.

Lemma keeps_planning_loop (n : nat) : forall i, keeps (planning_loop n i).
Proof.
  induction n as [ | n IH ]; intros i c.
  - open_cfg c. cbn [planning_loop]. grows_now.
  - open_cfg c. rewrite planning_loop_succ. mstep.
    destruct (send_request _ _ _) as [[r | e] w']; mstep; [ | grows_now ].
    destruct (check_workflow r) as [[[ | s l] | ] | e]; mstep.
    + match goal with
      | |- context [planning_loop n (S i) ?cx] =>
          apply (grows_trans _ cx); [ grows_now | apply IH ]
      end.
    + grows_now.
    + match goal with
      | |- context [planning_loop n (S i) ?cx] =>
          apply (grows_trans _ cx); [ grows_now | apply IH ]
      end.
    + grows_now.
Qed.

Lemma keeps_automatic_workflow : keeps automatic_workflow.
Proof.
  unfold automatic_workflow. repeat keeps_step. apply keeps_planning_loop.
Qed.

Lemma keeps_obtain_workflow : keeps obtain_workflow.
Proof.
  unfold obtain_workflow. apply keeps_bind; [ apply keeps_get | ].
  intros mode. destruct (String.eqb mode "automatic").
  - apply keeps_bind; [ apply keeps_automatic_workflow | ].
    intros workflow. apply keeps_bind; [ | intros _; apply keeps_ret ].
    apply (keeps_set_messages (firstn 1)).
  - apply keeps_manual_workflow.
Qed.

Lemma keeps_begin_execution workflow : keeps (begin_execution workflow).
Proof. intros c. open_cfg c. unfold begin_execution. grows_now. Qed.

Lemma keeps_finish_execution : keeps finish_execution.
Proof.
  intros c. open_cfg c. mred. destruct (last_opt ms); grows_now.
Qed.

Lemma keeps_run_handler e : keeps (run_handler e).
Proof. unfold run_handler. repeat keeps_step. Qed.

Ltac keeps_method :=
  lazymatch goal with
  | |- keeps build_system_instruction => apply keeps_build
  | |- keeps obtain_workflow => apply keeps_obtain_workflow
  | |- keeps (begin_execution _) => apply keeps_begin_execution
  | |- keeps (execute_steps _ _) => apply keeps_execute_steps
  | |- keeps finish_execution => apply keeps_finish_execution
  | |- keeps (run_handler _) => apply keeps_run_handler
  | |- keeps (match ?x with inl _ => _ | inr _ => _ end) => destruct x
  | |- _ => keeps_step
  end.

Lemma keeps_run_setup : keeps run_setup.
Proof. unfold run_setup. repeat keeps_method. Qed.

Lemma keeps_run : keeps run.
Proof. unfold run, run_body. repeat keeps_method. apply keeps_run_setup. Qed.

Lemma keeps_get_status : keeps get_status.
Proof. unfold get_status. repeat keeps_step. Qed.

(** X1. The log is append-only: whatever happens in [run] or in
    [get_status], the entries that were in [debug_logs] before are still
    there afterwards, in the same order and at the front. *)
Theorem debug_logs_append_only :
  forall c : Cfg,
    extends (debug_logs (self c)) (debug_logs (self (snd (run c)))) /\
    extends (debug_logs (self c)) (debug_logs (self (snd (get_status c)))).
Proof.
  intros c. split.
  - apply (keeps_run c).
  - apply (keeps_get_status c).
Qed.

(** X2. Over any run, in any mode and with any workflow, [rounds] never
    decreases and never grows by more than the number of language-model
    requests made during the run. *)
Theorem rounds_bounded_by_requests :
  forall c : Cfg,
    rounds (self c) <= rounds (self (snd (run c))) /\
    rounds (self (snd (run c))) - rounds (self c)
    <= count_requests (calls (snd (run c))) - count_requests (calls c).
Proof.
  intros c. destruct (keeps_run c) as (_ & _ & _ & _ & _ & _ & _ & Hc & H1 & H2).
  apply count_requests_extends in Hc. split; lia.
Qed.

(** X3. A run changes neither the agent's name, task, configuration and
    tool information, nor its workflow mode and its planning budget. *)
Theorem run_keeps_settings :
  forall c : Cfg,
    agent_name (self (snd (run c))) = agent_name (self c) /\
    task_input (self (snd (run c))) = task_input (self c) /\
    config (self (snd (run c))) = config (self c) /\
    tool_info_dump (self (snd (run c))) = tool_info_dump (self c) /\
    workflow_mode (self (snd (run c))) = workflow_mode (self c) /\
    plan_max_fail_times (self (snd (run c))) = plan_max_fail_times (self c).
Proof.
  intros c. destruct (keeps_run c) as (H1 & H2 & H3 & H4 & H5 & H6 & _).
  repeat split; assumption.
Qed.

(** *** Completed runs *)

Lemma run_setup_inr_nonempty (c c1 : Cfg) (wf : Workflow) :
  run_setup c = (Ok (inr wf), c1) -> wf <> [].
Proof.
  open_cfg c. unfold run_setup. mstep.
  destruct (build_system_instruction _) as [[[ | ] | e] cb]; mstep;
    [ | discriminate | discriminate ].
  destruct (obtain_workflow _) as [[o | e] cw]; mstep; [ | discriminate ].
  open_cfg_anon cw. destruct o as [[ | s l] | ]; mstep;
    intros H; inversion H; subst. discriminate.
Qed.

Lemma finish_execution_frame (c c1 : Cfg) (rr : RunResult) :
  finish_execution c = (Ok rr, c1) ->
  rounds (self c1) = rounds (self c) /\ calls c1 = calls c.
Proof.
  open_cfg c. mred. destruct (last_opt ms) as [m | ]; mstep;
    intros H; inversion H; subst. split; reflexivity.
Qed.

(** A run that returns status ["completed"] went through all of [run]:
    it obtained a workflow with at least one step, every step returned,
    and the result was built by the normal return. *)
Lemma run_completed_inv (c : Cfg) (rr : RunResult) :
  fst (run c) = Ok rr ->
  r_status rr = "completed" ->
  exists wf c1 cB,
    run_setup c = (Ok (inr wf), c1) /\
    wf <> [] /\
    execute_steps 0 wf (snd (begin_execution wf c1)) = (Ok tt, cB) /\
    finish_execution cB = (Ok rr, snd (run c)).
Proof.
  unfold run. intros Hrun Hst.
  destruct (run_body c) as [[rr' | e] c2] eqn:Hbody.
  - rewrite (try_except_eq_ok _ _ _ _ _ Hbody) in Hrun |- *.
    cbn [fst snd] in Hrun |- *. inversion Hrun; subst rr'.
    unfold run_body in Hbody.
    destruct (run_setup c) as [[[er | wf] | e] c1] eqn:Hsetup.
    + rewrite (bind_eq_ok _ _ _ _ _ Hsetup) in Hbody. inversion Hbody; subst.
      destruct (run_setup_inl _ _ _ Hsetup) as [_ [[Hs _] | [Hs _]]];
        rewrite Hs in Hst; discriminate.
    + rewrite (bind_eq_ok _ _ _ _ _ Hsetup) in Hbody.
      destruct (begin_execution_spec wf c1) as (HA & _).
      rewrite (bind_eq_ok _ _ _ _ _ HA) in Hbody.
      destruct (execute_steps 0 wf (snd (begin_execution wf c1)))
        as [[[] | e] cB] eqn:HB;
        [ rewrite (bind_eq_ok _ _ _ _ _ HB) in Hbody
        | rewrite (bind_eq_raise _ _ _ _ _ HB) in Hbody; discriminate ].
      exists wf, c1, cB. repeat split; try assumption.
      apply (run_setup_inr_nonempty _ _ _ Hsetup).
    + rewrite (bind_eq_raise _ _ _ _ _ Hsetup) in Hbody. discriminate.
  - rewrite (try_except_eq_raise _ _ _ _ _ Hbody) in Hrun.
    rewrite run_handler_spec in Hrun. cbn in Hrun. inversion Hrun; subst.
    discriminate.
Qed.

(** X4. In a run that ends with status ["completed"], in either mode,
    [rounds] has grown by exactly the number of language-model requests
    made during the run: the planning attempts plus one per step. *)
Theorem completed_run_counts_every_request :
  forall (c : Cfg) (rr : RunResult),
    fst (run c) = Ok rr ->
    r_status rr = "completed" ->
    r_rounds rr = rounds (self (snd (run c))) /\
    rounds (self (snd (run c))) + count_requests (calls c)
    = rounds (self c) + count_requests (calls (snd (run c))).
Proof.
  intros c rr Hrun Hst.
  destruct (run_completed_inv c rr Hrun Hst) as (wf & c1 & cB & Hsetup & _ & HB & HF).
  destruct (run_setup_inr_rounds _ _ _ Hsetup) as [H0 _].
  destruct (begin_execution_spec wf c1) as (_ & HAr & HAc & _).
  destruct (execute_steps_ok _ _ _ _ HB) as (Hr & Hc & _).
  destruct (finish_execution_frame _ _ _ HF) as [Hfr Hfc].
  destruct (finish_execution_ok _ _ _ HF) as (Hrr & _).
  rewrite HAc in Hc. rewrite Hfc. split; [ rewrite Hrr; reflexivity | lia ].
Qed.

(** *** Steps and the conversation *)

(** X5. A step that names tools asks [pre_select_tools] for exactly its
    [tool_use] list before anything is sent. If the selection raises,
    the step raises without making a request, with [rounds] unchanged
    and the step's prompt already in the conversation; otherwise the one
    request that follows carries the tools selected, the step's action
    type and the conversation including the prompt. *)
Theorem step_with_tools_selects_before_request :
  forall (i : nat) (step : Step) (c : Cfg) (t : string) (ts : list string),
    tool_use step = t :: ts ->
    let name := agent_name (self c) in
    let conversation := messages (self c) ++ [step_prompt i step] in
    match pre_select_tools (t :: ts) with
    | Raise e =>
        fst (execute_step i step c) = Raise e /\
        calls (snd (execute_step i step c))
        = calls c ++ [EvPreSelectTools (t :: ts) (Raise e)] /\
        messages (self (snd (execute_step i step c))) = conversation /\
        rounds (self (snd (execute_step i step c))) = rounds (self c)
    | Ok selected =>
        let q := mkLLMQuery conversation (Some selected)
                   (Some (action_type step)) None in
        calls (snd (execute_step i step c))
        = calls c ++ [EvPreSelectTools (t :: ts) (Ok selected);
                      EvSendRequest name q
                        (fst (send_request name q (snd (now (world c)))))]
    end.
Proof.
  intros i step c t ts Htools. cbv zeta. open_cfg c. mred. rewrite Htools. mstep.
  destruct (pre_select_tools (t :: ts)) as [sel | e]; mstep.
  - destruct (send_request _ _ _) as [[r | e] w']; mstep;
      rewrite <- app_assoc; reflexivity.
  - repeat split.
Qed.

(** X6. A step that raises leaves the conversation with the step's
    prompt as its last message and no reply, leaves [rounds] and the
    status as they were, and the exception is the one raised by the last
    collaborator call it made. *)
Theorem failed_step_leaves_prompt :
  forall (i : nat) (step : Step) (c c' : Cfg) (e : exn),
    execute_step i step c = (Raise e, c') ->
    messages (self c') = messages (self c) ++ [step_prompt i step] /\
    rounds (self c') = rounds (self c) /\
    status (self c') = status (self c) /\
    exists evs ev,
      calls c' = evs ++ [ev] /\
      ((exists name q, ev = EvSendRequest name q (Raise e)) \/
       (exists names, ev = EvPreSelectTools names (Raise e))).
Proof.
  intros i step c c' e. open_cfg c. mred.
  destruct (tool_use step) as [ | t ts ]; mstep.
  - destruct (send_request _ _ _) as [[r | e'] w']; mstep;
      intros H; inversion H; subst; mstep.
    repeat split. eexists. eexists. split; [ reflexivity | ].
    left. eexists. eexists. reflexivity.
  - destruct (pre_select_tools _) as [sel | e']; mstep.
    + destruct (send_request _ _ _) as [[r | e''] w']; mstep;
        intros H; inversion H; subst; mstep.
      repeat split. eexists. eexists. split; [ reflexivity | ].
      left. eexists. eexists. reflexivity.
    + intros H; inversion H; subst; mstep.
      repeat split. eexists. eexists. split; [ reflexivity | ].
      right. eexists. reflexivity.
Qed.

(** What a step that returns has added: its prompt and the reply to the
    conversation, and the answered request at the end of the record of
    calls. *)
Lemma execute_step_returns (i : nat) (step : Step) (c c' : Cfg) :
  execute_step i step c = (Ok tt, c') ->
  exists r evs q,
    messages (self c') = messages (self c)
                           ++ [step_prompt i step; mkMessage "assistant" r] /\
    calls c' = evs ++ [EvSendRequest (agent_name (self c)) q (Ok r)].
Proof.
  open_cfg c. mred. destruct (tool_use step) as [ | t ts ]; mstep.
  - destruct (send_request _ _ _) as [[r | e] w']; mstep;
      intros H; inversion H; subst; mstep.
    exists r. eexists. eexists. rewrite <- app_assoc. split; reflexivity.
  - destruct (pre_select_tools _) as [sel | e]; mstep; [ | discriminate ].
    destruct (send_request _ _ _) as [[r | e] w']; mstep;
      intros H; inversion H; subst; mstep.
    exists r. eexists. eexists. rewrite <- app_assoc. split; reflexivity.
Qed.

Lemma request_views_app (l1 l2 : list Event) :
  request_views (l1 ++ l2) = request_views l1 ++ request_views l2.
Proof. apply flat_map_app. Qed.

(** A step that returns, with the request it made. *)
Lemma execute_step_returns_views (i : nat) (step : Step) (c c' : Cfg) :
  execute_step i step c = (Ok tt, c') ->
  exists r new,
    messages (self c') = messages (self c)
                           ++ [step_prompt i step; mkMessage "assistant" r] /\
    calls c' = calls c ++ new /\
    request_views new
    = [(messages (self c) ++ [step_prompt i step], Some (action_type step), Ok r)].
Proof.
  open_cfg c. mred. destruct (tool_use step) as [ | t ts ]; mstep.
  - destruct (send_request _ _ _) as [[r | e] w']; mstep;
      intros H; inversion H; subst; mstep.
    exists r. eexists. rewrite <- app_assoc. repeat split.
  - destruct (pre_select_tools _) as [sel | e]; mstep; [ | discriminate ].
    destruct (send_request _ _ _) as [[r | e] w']; mstep;
      intros H; inversion H; subst; mstep.
    exists r. eexists. rewrite <- !app_assoc. repeat split.
Qed.

(** X7. When the step loop returns, every step has made one request,
    which carried the conversation so far with the step's prompt and
    the step's action type, and was answered; the conversation is the
    one the loop started from followed, for each step in order, by the
    step's prompt and, under the role [assistant], the answer to that
    step's request: two messages per step and nothing else. *)
Theorem execute_steps_conversation :
  forall (workflow : Workflow) (i : nat) (c c' : Cfg),
    execute_steps i workflow c = (Ok tt, c') ->
    exists replies new,
      length replies = length workflow /\
      messages (self c') = messages (self c) ++ exchanges i workflow replies /\
      calls c' = calls c ++ new /\
      request_views new = expected_views (messages (self c)) i workflow replies.
Proof.
  induction workflow as [ | step rest IH ]; intros i c c' H.
  - inversion H; subst. exists [], []. cbn. rewrite !app_nil_r. repeat split.
  - rewrite execute_steps_cons in H.
    destruct (execute_step i step c) as [[[] | e] c1] eqn:H1;
      [ rewrite (bind_eq_ok _ _ _ _ _ H1) in H
      | rewrite (bind_eq_raise _ _ _ _ _ H1) in H; discriminate ].
    destruct (execute_step_returns_views _ _ _ _ H1) as (r & new1 & Hm & Hc & Hv).
    destruct (IH _ _ _ H) as (rs & new2 & Hlen & Hms & Hcs & Hvs).
    exists (r :: rs), (new1 ++ new2).
    split; [ cbn; congruence | ].
    split; [ rewrite Hms, Hm; cbn [exchanges]; rewrite <- app_assoc; reflexivity | ].
    split; [ rewrite Hcs, Hc, <- app_assoc; reflexivity | ].
    rewrite request_views_app, Hv, Hvs, Hm. reflexivity.
Qed.

Lemma execute_steps_last (rest : Workflow) :
  forall (step : Step) (i : nat) (c c' : Cfg),
    execute_steps i (step :: rest) c = (Ok tt, c') ->
    exists evs q r,
      calls c' = evs ++ [EvSendRequest (agent_name (self c)) q (Ok r)] /\
      last_opt (messages (self c')) = Some (mkMessage "assistant" r).
Proof.
  induction rest as [ | next rest IH ]; intros step i c c' H;
    rewrite execute_steps_cons in H;
    (destruct (execute_step i step c) as [[[] | e] c1] eqn:H1;
      [ rewrite (bind_eq_ok _ _ _ _ _ H1) in H
      | rewrite (bind_eq_raise _ _ _ _ _ H1) in H; discriminate ]).
  - inversion H; subst.
    destruct (execute_step_returns _ _ _ _ H1) as (r & evs & q & Hm & Hc).
    exists evs, q, r. split; [ exact Hc | ].
    rewrite Hm.
    change [step_prompt i step; mkMessage "assistant" r]
      with ([step_prompt i step] ++ [mkMessage "assistant" r]).
    rewrite app_assoc. apply last_opt_snoc.
  - destruct (IH _ _ _ _ H) as (evs & q & r & Hc & Hl).
    destruct (keeps_execute_step i step c) as (Hname & _).
    rewrite H1 in Hname. cbn [snd] in Hname. rewrite Hname in Hc.
    exists evs, q, r. split; assumption.
Qed.

(** X8. The [result] of a run that ends with status ["completed"], in
    either mode and whatever the workflow, is the reply to the last
    request the run made; that reply is also the last message of the
    conversation, stored under the role [assistant]. *)
Theorem completed_run_result_is_last_reply :
  forall (c : Cfg) (rr : RunResult),
    fst (run c) = Ok rr ->
    r_status rr = "completed" ->
    exists evs q r,
      calls (snd (run c)) = evs ++ [EvSendRequest (agent_name (self c)) q (Ok r)] /\
      last_opt (messages (self (snd (run c)))) = Some (mkMessage "assistant" r) /\
      r_result rr = Some r.
Proof.
  intros c rr Hrun Hst.
  destruct (run_completed_inv c rr Hrun Hst)
    as (wf & c1 & cB & Hsetup & Hne & HB & HF).
  destruct wf as [ | step rest ]; [ contradiction | ].
  destruct (execute_steps_last _ _ _ _ _ HB) as (evs & q & r & Hc & Hl).
  destruct (finish_execution_frame _ _ _ HF) as [_ Hfc].
  destruct (finish_execution_ok _ _ _ HF) as (_ & _ & m & Hm & Hres & Hmsgs).
  assert (Hname : agent_name (self (snd (begin_execution (step :: rest) c1)))
                  = agent_name (self c)).
  { destruct (keeps_begin_execution (step :: rest) c1) as (Hn1 & _).
    destruct (keeps_run_setup c) as (Hn0 & _).
    rewrite Hsetup in Hn0. cbn [snd] in Hn0. congruence. }
  rewrite Hname in Hc. rewrite Hl in Hm. inversion Hm; subst m.
  exists evs, q, r. rewrite Hfc, Hmsgs. repeat split; assumption.
Qed.

(** *** get_status as a side channel *)

(** X9. [get_status] changes nothing of the agent but the log: status,
    rounds, conversation and mode are as before and no collaborator is
    called. This holds also when it returns the degraded snapshot: the
    snapshot then says ["error"], the agent's own status does not. *)
Theorem get_status_reads_only :
  forall c : Cfg,
    status (self (snd (get_status c))) = status (self c) /\
    rounds (self (snd (get_status c))) = rounds (self c) /\
    messages (self (snd (get_status c))) = messages (self c) /\
    workflow_mode (self (snd (get_status c))) = workflow_mode (self c) /\
    calls (snd (get_status c)) = calls c /\
    (forall info e,
       fst (get_status c) = Ok info ->
       si_error info = Some e ->
       si_status info = "error" /\ si_rounds info = None).
Proof.
  intros c. open_cfg c. unfold get_status. mstep.
  destruct (json_dumps_status _) as [s | e]; mstep; repeat split;
    inversion H; subst; try discriminate; reflexivity.
Qed.

(** *** Building the instruction *)

(** X10. What [build_system_instruction] does, case by case. It returns
    [False] when the configuration has no description, when the tool
    information cannot be serialised (in manual mode too, which does
    not use the planning instruction), and when the mode is neither
    ["manual"] nor ["automatic"]; the conversation is then untouched,
    the status is ["error"] and the log ends with the error entry and
    the status change. Otherwise it returns [True] with status
    ["system_instruction_built"], having appended the system message, and
    in automatic mode also the planning instruction as a user message. *)
Theorem build_system_instruction_cases :
  forall c : Cfg,
    let a := self c in
    let c' := snd (build_system_instruction c) in
    let fails (e : exn) :=
      fst (build_system_instruction c) = Ok false /\
      messages (self c') = messages a /\
      status (self c') = "error" /\
      exists t1 t2 t3,
        debug_logs (self c')
        = debug_logs a
            ++ [mkLogEntry "debug"
                  (status_message (status a) "building_system_instruction") t1
                  None None;
                mkLogEntry "error" "Error in build_system_instruction" t2
                  (Some e) (Some (format_exc e));
                mkLogEntry "debug"
                  "Status changed: building_system_instruction -> error" t3
                  None None] in
    let built (added : list Message) :=
      fst (build_system_instruction c) = Ok true /\
      messages (self c') = messages a ++ added /\
      status (self c') = "system_instruction_built" in
    match config_get "description" (config a), tool_info_dump a with
    | None, _ => fails "'description'"
    | Some _, Raise e => fails e
    | Some d, Ok dump =>
        let sys := mkMessage "system" (String.concat "" [String.concat "" d]) in
        let plan :=
          mkMessage "user"
            ("You are given the available tools from the tool list: " ++ dump
               ++ plan_instruction_tail)%string in
        if String.eqb (workflow_mode a) "manual" then built [sys]
        else if String.eqb (workflow_mode a) "automatic" then built [sys; plan]
        else fails ""
    end.
Proof.
  intros c. cbv zeta. open_cfg c. mred.
  destruct (config_get "description" cfg) as [d | ]; mstep.
  2: { destruct tools; repeat split; do 3 eexists;
       rewrite <- !app_assoc; reflexivity. }
  destruct tools as [dump | e]; mstep.
  2: { repeat split. do 3 eexists. rewrite <- !app_assoc. reflexivity. }
  destruct (String.eqb mode "manual"); mstep; [ repeat split | ].
  destruct (String.eqb mode "automatic"); mstep.
  - repeat split. rewrite <- app_assoc. reflexivity.
  - repeat split. do 3 eexists. rewrite <- !app_assoc. reflexivity.
Qed.

(** X11. When the instruction cannot be built, [run] stops there: it
    returns status ["error"] with the fixed text as [result] and without
    the key [error] (the exception is in the log only); it has called no
    collaborator and has left [rounds] and the conversation as they
    were. *)
Theorem run_reports_build_failure :
  forall c : Cfg,
    build_fails (self c) ->
    exists rr,
      fst (run c) = Ok rr /\
      r_status rr = "error" /\
      r_result rr = Some "Failed to build system instruction" /\
      r_error rr = None /\
      r_rounds rr = rounds (self c) /\
      calls (snd (run c)) = calls c /\
      messages (self (snd (run c))) = messages (self c).
Proof.
  intros c. open_cfg c. unfold build_fails. mstep.
  intros [Hcfg | [[e Htools] | [Hm Ha]]].
  - mred. rewrite Hcfg. mstep. eexists. repeat split.
  - subst tools. mred. destruct (config_get "description" cfg); mstep;
      eexists; repeat split.
  - apply String.eqb_neq in Hm, Ha. mred.
    destruct (config_get "description" cfg); mstep; [ | eexists; repeat split ].
    destruct tools; mstep; [ | eexists; repeat split ].
    rewrite Hm. mstep. rewrite Ha. mstep. eexists. repeat split.
Qed.

(** *** Outcomes of planning *)

Lemma fail_notices_succ (i n : nat) :
  fail_notice i :: fail_notices (S i) n = fail_notices i (S n).
Proof. reflexivity. Qed.

(** How the planning loop can return: with the first workflow that is
    not empty, after [j] rejected attempts, or with [None] when all [n]
    attempts were rejected. *)
Lemma planning_loop_outcome (n : nat) :
  forall (i : nat) (c c' : Cfg) (o : option Workflow),
    planning_loop n i c = (Ok o, c') ->
    (exists s l j,
       o = Some (s :: l) /\ j < n /\
       status (self c') = "workflow_generated" /\
       rounds (self c') = rounds (self c) + S j /\
       messages (self c') = messages (self c) ++ fail_notices i j) \/
    (o = None /\
     status (self c') = "workflow_generation_failed" /\
     rounds (self c') = rounds (self c) + n /\
     messages (self c') = messages (self c) ++ fail_notices i n).
Proof.
  induction n as [ | n IH ]; intros i c c' o.
  - open_cfg c. cbn [planning_loop]. mstep. intros H. inversion H; subst. mstep.
    right. repeat split; [ lia | ]. cbn. rewrite app_nil_r. reflexivity.
  - open_cfg c. rewrite planning_loop_succ. mstep.
    destruct (send_request _ _ _) as [[r | e] w']; mstep; [ | discriminate ].
    destruct (check_workflow r) as [[[ | s l] | ] | e]; mstep.
    + intros H. apply IH in H. mstep_in H.
      destruct H as [(s & l & j & Ho & Hj & Hst & Hr & Hm) | (Ho & Hst & Hr & Hm)].
      * left. exists s, l, (S j). rewrite <- fail_notices_succ.
        repeat split; try assumption; try lia.
        rewrite Hm, <- app_assoc. reflexivity.
      * right. rewrite <- fail_notices_succ.
        repeat split; try assumption; try lia.
        rewrite Hm, <- app_assoc. reflexivity.
    + intros H. inversion H; subst. mstep.
      left. exists s, l, 0. repeat split; try lia.
      cbn. rewrite app_nil_r. reflexivity.
    + intros H. apply IH in H. mstep_in H.
      destruct H as [(s & l & j & Ho & Hj & Hst & Hr & Hm) | (Ho & Hst & Hr & Hm)].
      * left. exists s, l, (S j). rewrite <- fail_notices_succ.
        repeat split; try assumption; try lia.
        rewrite Hm, <- app_assoc. reflexivity.
      * right. rewrite <- fail_notices_succ.
        repeat split; try assumption; try lia.
        rewrite Hm, <- app_assoc. reflexivity.
    + discriminate.
Qed.

(** X12. [automatic_workflow] returns in one of three ways. Accepted:
    a workflow with at least one step, status ["workflow_generated"],
    after [j] rejected attempts, with [j + 1] rounds and [j] failure
    notices added. Exhausted: [None], status
    ["workflow_generation_failed"], one round and one notice per attempt
    of the budget. Caught exception: [None], status ["error"], and the
    log ends with the error entry and the status change. It never
    returns an empty workflow: a reply that parses to an empty plan
    counts as a rejected attempt. *)
Theorem automatic_workflow_outcome :
  forall c : Cfg,
    let c' := snd (automatic_workflow c) in
    let n := plan_max_fail_times (self c) in
    exists o,
      fst (automatic_workflow c) = Ok o /\
      ((exists s l j,
          o = Some (s :: l) /\ j < n /\
          status (self c') = "workflow_generated" /\
          rounds (self c') = rounds (self c) + S j /\
          messages (self c') = messages (self c) ++ fail_notices 0 j) \/
       (o = None /\
        status (self c') = "workflow_generation_failed" /\
        rounds (self c') = rounds (self c) + n /\
        messages (self c') = messages (self c) ++ fail_notices 0 n) \/
       (o = None /\
        status (self c') = "error" /\
        exists e old pre t1 t2,
          debug_logs (self c')
          = pre ++ [mkLogEntry "error" "Error in automatic_workflow" t1
                      (Some e) (Some (format_exc e));
                    mkLogEntry "debug" (status_message old "error") t2
                      None None])).
Proof.
  intros c. cbv zeta. open_cfg c. mred.
  match goal with
  | |- context [planning_loop pmax 0 ?cx] =>
      destruct (planning_loop pmax 0 cx) as [[o | e] cp] eqn:Hloop
  end; mstep.
  - apply planning_loop_outcome in Hloop. mstep_in Hloop.
    exists o. split; [ reflexivity | ].
    destruct Hloop as [H | H]; [ left | right; left ]; exact H.
  - open_cfg_anon cp. mstep. exists None. split; [ reflexivity | ].
    right; right. repeat split. do 5 eexists.
    rewrite <- app_assoc. reflexivity.
Qed.

(** X13. Automatic mode with a transport that answers and a validator
    that accepts nothing, end to end: once the instruction is built,
    [run] uses up the planning budget and returns status ["failed"]
    (the planner's ["workflow_generation_failed"] is overwritten) with
    the fixed text as [result] and no key [error]; [rounds] and the
    number of requests have both grown by the budget, so no step was
    started, and the conversation is cut down to its first entry. *)
Theorem rejected_planning_fails_the_run :
  (forall name q w, exists r, fst (send_request name q w) = Ok r) ->
  (forall r, exists wf, check_workflow r = Ok wf /\ truthy wf = false) ->
  forall (c : Cfg) (d : list string) (dump : string),
    workflow_mode (self c) = "automatic" ->
    config_get "description" (config (self c)) = Some d ->
    tool_info_dump (self c) = Ok dump ->
    exists rr,
      fst (run c) = Ok rr /\
      r_status rr = "failed" /\
      r_result rr = Some "Failed to generate a valid workflow." /\
      r_error rr = None /\
      r_rounds rr = rounds (self c) + plan_max_fail_times (self c) /\
      count_requests (calls (snd (run c)))
      = count_requests (calls c) + plan_max_fail_times (self c) /\
      messages (self (snd (run c)))
      = firstn 1 (messages (self c)
                    ++ [mkMessage "system" (String.concat "" [String.concat "" d])]).
Proof.
  intros Hsend Hcheck c d dump. open_cfg c. mstep.
  intros -> Hcfg ->. mred. rewrite Hcfg. mstep. decide_mode.
  match goal with
  | |- context [planning_loop pmax 0 ?cx] =>
      destruct (planning_loop_rejected Hsend Hcheck pmax 0 cx)
        as (Hres & Hrounds & Hmsgs & _ & replies & Hlen & Hcalls);
      destruct (planning_loop pmax 0 cx) as [o cp]
  end.
  cbn [fst snd] in Hres, Hrounds, Hmsgs, Hcalls. subst o. open_cfg_anon cp.
  mstep_in Hrounds. mstep_in Hmsgs. mstep_in Hcalls. subst. mstep.
  eexists. split; [ reflexivity | ]. mstep.
  rewrite count_requests_app, count_planning_requests.
  repeat split. destruct ms; reflexivity.
Qed.

(** X14. An exception during planning does not reach the handler of
    [run]. If, in automatic mode with the instruction built and a budget
    of at least one attempt, the first planning request raises [e], then
    [automatic_workflow] absorbs it and [run] returns status ["failed"]
    with the planning-failure text and without the key [error]; [e] is
    recorded only in the log. One request was made, no round was
    counted, and no further attempt was made. *)
Theorem planning_exception_reported_as_failed :
  forall (c : Cfg) (d : list string) (dump : string) (n : nat) (e : exn),
    workflow_mode (self c) = "automatic" ->
    config_get "description" (config (self c)) = Some d ->
    tool_info_dump (self c) = Ok dump ->
    plan_max_fail_times (self c) = S n ->
    (forall ms w, fst (send_request (agent_name (self c)) (planning_query ms) w)
                  = Raise e) ->
    exists rr,
      fst (run c) = Ok rr /\
      r_status rr = "failed" /\
      r_result rr = Some "Failed to generate a valid workflow." /\
      r_error rr = None /\
      r_rounds rr = rounds (self c) /\
      count_requests (calls (snd (run c))) = count_requests (calls c) + 1 /\
      exists t,
        In (mkLogEntry "error" "Error in automatic_workflow" t (Some e)
              (Some (format_exc e)))
           (debug_logs (self (snd (run c)))).
Proof.
  intros c d dump n e. open_cfg c. mstep.
  intros -> Hcfg -> -> Hdown. mred. rewrite Hcfg. mstep. decide_mode.
  rewrite planning_loop_succ. mstep.
  match goal with
  | |- context [send_request nm (planning_query ?q) ?wx] =>
      pose proof (Hdown q wx) as Hq;
      destruct (send_request nm (planning_query q) wx) as [r w']
  end.
  cbn [fst] in Hq. subst r. mstep.
  eexists. split; [ reflexivity | ]. mstep.
  rewrite count_requests_snoc_request. repeat split.
  eexists.
  repeat (apply in_or_app; first [ right; left; reflexivity | left ]).
Qed.

(** X15. A manual run that completes, from any configuration of the
    agent (new or already used). Its calls are the tool selection of
    step 1 and three answered requests, each carrying the conversation
    so far with its step's prompt. The conversation it leaves is the one
    it found followed by the system message, the task, the workflow
    summary and, for each of the three steps, the prompt and the answer
    to that step's request; [rounds] is three more than before, so a
    second run on the same agent goes on counting; and the result is
    the answer to the third request. *)
Theorem manual_run_conversation :
  forall (c : Cfg) (d : list string) (dump : string) (rr : RunResult),
    workflow_mode (self c) = "manual" ->
    config_get "description" (config (self c)) = Some d ->
    tool_info_dump (self c) = Ok dump ->
    fst (run c) = Ok rr ->
    r_status rr = "completed" ->
    exists selected a1 a2 a3 q1 q2 q3,
      let name := agent_name (self c) in
      let conversation :=
        messages (self c)
          ++ [mkMessage "system" (String.concat "" [String.concat "" d]);
              mkMessage "user" (task_input (self c));
              thinking_message manual_template] in
      let requests :=
        [EvSendRequest name q1 (Ok a1);
         EvSendRequest name q2 (Ok a2);
         EvSendRequest name q3 (Ok a3)] in
      calls (snd (run c))
      = calls c ++ EvPreSelectTools ["demo_author/arxiv"] (Ok selected) :: requests /\
      request_views requests
      = expected_views conversation 0 manual_template [a1; a2; a3] /\
      map q_tools [q1; q2; q3] = [Some selected; None; None] /\
      messages (self (snd (run c)))
      = conversation ++ exchanges 0 manual_template [a1; a2; a3] /\
      r_rounds rr = rounds (self c) + 3 /\
      r_result rr = Some a3.
Proof.
  intros c d dump rr. open_cfg c. mstep.
  intros -> Hcfg ->. mrun. rewrite Hcfg. mrun. decide_mode. mrun.
  destruct (pre_select_tools _) as [sel | e]; mrun;
    [ | intros H; inversion H; subst; discriminate ].
  destruct (send_request _ _ _) as [[r1 | e] w1]; mrun;
    [ | intros H; inversion H; subst; discriminate ].
  destruct (send_request _ _ _) as [[r2 | e] w2]; mrun;
    [ | intros H; inversion H; subst; discriminate ].
  destruct (send_request _ _ _) as [[r3 | e] w3]; mrun;
    [ | intros H; inversion H; subst; discriminate ].
  rewrite last_opt_snoc. mrun.
  intros H _. inversion H; subst.
  exists sel, r1, r2, r3. do 3 eexists.
  cbn [exchanges r_rounds r_result].
  split; [ rewrite <- !app_assoc; reflexivity | ].
  split.
  { cbn [request_views flat_map request_view expected_views app
         q_messages q_action_type manual_template action_type].
    rewrite <- !app_assoc. reflexivity. }
  split; [ reflexivity | ].
  split; [ rewrite <- !app_assoc; reflexivity | ].
  split; [ lia | reflexivity ].
Qed.

End MathAgent.

(** ** The properties on sample runs *)

Local Open Scope list_scope.

(** A newly constructed agent for the task of the specification. *)
Local Notation "'fresh_agent'" :=
  (init nat sample_now "math_agent" "Solve x^2 - 4 = 0" sample_config (Ok "[]") 0).

Local Notation "'automatic_agent'" := (with_mode nat "automatic" fresh_agent).

(** A manual run whose second step request raises. *)
Local Notation "'run_failing_second'" :=
  (run nat (sample_send (Some 1)) sample_select sample_check_accept sample_now
     sample_format_exc sample_dumps_workflow).

(** An automatic run whose plan is accepted at once and whose second
    step request (the third request in all) raises. *)
Local Notation "'run_failing_third'" :=
  (run nat (sample_send (Some 2)) sample_select sample_check_accept sample_now
     sample_format_exc sample_dumps_workflow).

(** A run in which every request is answered. *)
Local Notation "'run_answered'" :=
  (run nat (sample_send None) sample_select sample_check_accept sample_now
     sample_format_exc sample_dumps_workflow).

(** The second step of the manual template fails after the first has
    completed: [run] returns status ["error"] and [rounds = 1]. *)
Lemma step_failure_is_caught_by_run_witness :
  exists rr,
    fst (run_failing_second fresh_agent) = Ok rr /\
    r_status rr = "error" /\
    r_error rr = Some "connection reset" /\
    r_rounds rr = 1.
Proof.
  pose (send := sample_send (Some 1)).
  pose (c1 := snd (run_setup nat send sample_check_accept sample_now
                     sample_format_exc fresh_agent)).
  pose (cA := snd (begin_execution nat sample_now sample_dumps_workflow
                     manual_template c1)).
  pose (c' := snd (execute_steps nat send sample_select sample_now 0
                     (firstn 1 manual_template) cA)).
  pose (step := mkStep "chat"
                  "Analyze the mathematical problem and provide solution steps" []).
  pose (c2 := snd (execute_step nat send sample_select sample_now 1 step c')).
  destruct (step_failure_is_caught_by_run nat send sample_select
              sample_check_accept sample_now sample_format_exc
              sample_dumps_workflow fresh_agent c1 c' c2 manual_template 1 step
              "connection reset")
    as (rr & t1 & t2 & _ & Hrun & Hst & _ & Herr & _ & Hrounds & _);
    [ vm_compute; reflexivity | vm_compute; reflexivity | reflexivity
    | vm_compute; reflexivity | ].
  exists rr. fold send. rewrite Hrun. repeat split; assumption.
Defined.

(** The claim of C1 on [rounds] fails in automatic mode: one planning
    request is answered and accepted, the first step completes, the
    second step raises, and [run] returns [rounds = 2], not 1. *)
Lemma step_failure_rounds_counterexample :
  exists c1 c' c2 step rr,
    run_setup nat (sample_send (Some 2)) sample_check_accept sample_now
      sample_format_exc automatic_agent
    = (Ok (inr sample_plan), c1) /\
    execute_steps nat (sample_send (Some 2)) sample_select sample_now 0
      (firstn 1 sample_plan)
      (snd (begin_execution nat sample_now sample_dumps_workflow sample_plan c1))
    = (Ok tt, c') /\
    nth_error sample_plan 1 = Some step /\
    execute_step nat (sample_send (Some 2)) sample_select sample_now 1 step c'
    = (Raise "connection reset", c2) /\
    fst (run_failing_third automatic_agent) = Ok rr /\
    r_status rr = "error" /\
    r_rounds rr = 2 /\
    r_rounds rr <> 1.
Proof.
  do 5 eexists.
  split; [ lazy; reflexivity | ].
  split; [ lazy; reflexivity | ].
  split; [ reflexivity | ].
  split; [ lazy; reflexivity | ].
  split; [ lazy; reflexivity | ].
  repeat split. discriminate.
Qed.


(** The manual run of the specification's example with every call
    answered. *)
Lemma manual_run_completes_witness :
  exists rr,
    fst (run_answered fresh_agent) = Ok rr /\
    r_status rr = "completed" /\
    r_rounds rr = 3.
Proof.
  destruct (manual_run_completes nat (sample_send None) sample_select
              sample_check_accept sample_now sample_format_exc
              sample_dumps_workflow "math_agent" "Solve x^2 - 4 = 0"
              sample_config ["You are a math expert. "] "[]" 0)
    as (rr & ts & q1 & q2 & q3 & a1 & a2 & a3 & Hrun & Hst & Hrounds & _);
    [ reflexivity | vm_compute; reflexivity | ].
  exists rr. repeat split; assumption.
Defined.

(** The truncation on the automatic agent once the system instruction
    is in place, and its absence on the manual one. *)
Lemma truncation_only_in_automatic_mode_witness :
  messages
    (self nat
       (snd (obtain_workflow nat (sample_send None) sample_check_accept
               sample_now sample_format_exc
               (snd (build_system_instruction nat sample_now sample_format_exc
                       automatic_agent)))))
  = [mkMessage "system" "You are a math expert. "] /\
  extends (messages (self nat fresh_agent))
    (messages (self nat (snd (run_answered fresh_agent)))).
Proof.
  split.
  - destruct (truncation_only_in_automatic_mode nat (sample_send None)
                sample_select sample_check_accept sample_now sample_format_exc
                sample_dumps_workflow
                (snd (build_system_instruction nat sample_now sample_format_exc
                        automatic_agent)))
      as [[_ [_ [Hfirst _]]] _]; [ reflexivity | ].
    eapply Hfirst. vm_compute. reflexivity.
  - destruct (truncation_only_in_automatic_mode nat (sample_send None)
                sample_select sample_check_accept sample_now sample_format_exc
                sample_dumps_workflow fresh_agent)
      as [_ [_ [_ Hext]]]; [ reflexivity | ].
    exact Hext.
Defined.

(** After planning, the automatic agent's conversation is the system
    message alone. *)
Lemma automatic_planning_leaves_system_message_witness :
  config_get "description" sample_config = Some ["You are a math expert. "] /\
  messages
    (self nat
       (snd (run_setup nat (sample_send None) sample_check_accept sample_now
               sample_format_exc automatic_agent)))
  = [mkMessage "system" "You are a math expert. "].
Proof.
  split; [ reflexivity | ].
  destruct (automatic_planning_leaves_system_message nat (sample_send None)
              sample_select sample_check_accept sample_now sample_format_exc
              sample_dumps_workflow "math_agent" "Solve x^2 - 4 = 0"
              sample_config ["You are a math expert. "] "[]" 0 eq_refl)
    as (_ & Hmsgs & _).
  exact Hmsgs.
Defined.

(** The claim of C6 fails on a run whose configuration has no
    description: the instruction cannot be built, the run fails with
    status ["error"], and the result it returns has the key [result]. *)
Lemma failure_result_present_counterexample :
  exists rr,
    fst (run_answered
           (init nat sample_now "math_agent" "Solve x^2 - 4 = 0" [] (Ok "[]") 0))
    = Ok rr /\
    r_status rr = "error" /\
    r_result rr = Some "Failed to build system instruction" /\
    r_result rr <> None.
Proof.
  eexists. split; [ lazy; reflexivity | ].
  repeat split. discriminate.
Qed.

(** The log of the completed manual run. *)
Lemma manual_run_transitions_witness :
  exists rr,
    fst (run_answered fresh_agent) = Ok rr /\
    r_status rr = "completed" /\
    replay "initialized" (transitions (r_debug_logs rr))
    = Some ["initialized"; "running"; "building_system_instruction";
            "system_instruction_built"; "generating_workflow";
            "workflow_generated"; "executing_workflow"; "completed"].
Proof.
  assert (H : exists rr, fst (run_answered fresh_agent) = Ok rr /\
                         r_status rr = "completed")
    by (eexists; split; lazy; reflexivity).
  destruct H as (rr & Hrun & Hst).
  exists rr. split; [ exact Hrun | ]. split; [ exact Hst | ].
  destruct (manual_run_transitions nat (sample_send None) sample_select
              sample_check_accept sample_now sample_format_exc
              sample_dumps_workflow "math_agent" "Solve x^2 - 4 = 0"
              sample_config (Ok "[]") 0 rr Hrun Hst)
    as (_ & Hreplay & _).
  exact Hreplay.
Defined.

(** A chat step without tools on the new agent. *)
Lemma empty_tool_use_offers_no_tools_witness :
  calls nat
    (snd (execute_step nat (sample_send None) sample_select sample_now 1
            (mkStep "chat" "Solve it" []) fresh_agent))
  = [EvSendRequest "math_agent"
       (mkLLMQuery [mkMessage "user" "At step 2, you need to: Solve it. "]
          None (Some "chat") None)
       (Ok "reply")].
Proof.
  destruct (empty_tool_use_offers_no_tools nat (sample_send None) sample_select
              sample_now 1 (mkStep "chat" "Solve it" []) fresh_agent eq_refl)
    as [Hcalls _].
  rewrite Hcalls. reflexivity.
Defined.

(** An automatic run whose plan is accepted at once and whose two steps
    are answered: one planning round and two step rounds. *)
Lemma completed_run_counts_every_request_witness :
  exists rr,
    fst (run_answered automatic_agent) = Ok rr /\
    r_status rr = "completed" /\
    r_rounds rr = 3 /\
    count_requests (calls nat (snd (run_answered automatic_agent))) = 3.
Proof.
  assert (H : exists rr, fst (run_answered automatic_agent) = Ok rr /\
                         r_status rr = "completed")
    by (eexists; split; lazy; reflexivity).
  destruct H as (rr & Hrun & Hst).
  destruct (completed_run_counts_every_request nat (sample_send None)
              sample_select sample_check_accept sample_now sample_format_exc
              sample_dumps_workflow automatic_agent rr Hrun Hst)
    as [Hrr Heq].
  exists rr. split; [ exact Hrun | ]. split; [ exact Hst | ].
  assert (Hr : rounds (self nat (snd (run_answered automatic_agent))) = 3)
    by (vm_compute; reflexivity).
  rewrite Hr in Hrr, Heq. split; [ exact Hrr | ].
  change (count_requests (calls nat automatic_agent)) with 0 in Heq.
  change (rounds (self nat automatic_agent)) with 0 in Heq.
  lia.
Defined.

(** The first step of the manual template on the new agent. *)
Lemma step_with_tools_selects_before_request_witness :
  calls nat
    (snd (execute_step nat (sample_send None) sample_select sample_now 0
            (mkStep "tool_use" "Search" ["demo_author/arxiv"]) fresh_agent))
  = [EvPreSelectTools ["demo_author/arxiv"] (Ok ["demo_author/arxiv"]);
     EvSendRequest "math_agent"
       (mkLLMQuery [mkMessage "user" "At step 1, you need to: Search. "]
          (Some ["demo_author/arxiv"]) (Some "tool_use") None)
       (Ok "reply")].
Proof.
  exact (step_with_tools_selects_before_request nat (sample_send None)
           sample_select sample_now 0
           (mkStep "tool_use" "Search" ["demo_author/arxiv"]) fresh_agent
           "demo_author/arxiv" [] eq_refl).
Defined.

(** A chat step whose request is refused. *)
Lemma failed_step_leaves_prompt_witness :
  messages
    (self nat
       (snd (execute_step nat (sample_send (Some 0)) sample_select sample_now 0
               (mkStep "chat" "Solve it" []) fresh_agent)))
  = [mkMessage "user" "At step 1, you need to: Solve it. "].
Proof.
  destruct (failed_step_leaves_prompt nat (sample_send (Some 0)) sample_select
              sample_now 0 (mkStep "chat" "Solve it" []) fresh_agent
              (snd (execute_step nat (sample_send (Some 0)) sample_select
                      sample_now 0 (mkStep "chat" "Solve it" []) fresh_agent))
              "connection reset")
    as (Hm & _); [ vm_compute; reflexivity | ].
  exact Hm.
Defined.

(** The two steps of the sample plan, both answered. *)
Lemma execute_steps_conversation_witness :
  exists replies,
    length replies = 2 /\
    messages
      (self nat
         (snd (execute_steps nat (sample_send None) sample_select sample_now 0
                 sample_plan fresh_agent)))
    = exchanges 0 sample_plan replies.
Proof.
  destruct (execute_steps_conversation nat (sample_send None) sample_select
              sample_now sample_plan 0 fresh_agent
              (snd (execute_steps nat (sample_send None) sample_select
                      sample_now 0 sample_plan fresh_agent)))
    as (replies & new & Hlen & Hm & _); [ vm_compute; reflexivity | ].
  exists replies. split; assumption.
Defined.

(** The completed automatic run returns the last reply. *)
Lemma completed_run_result_is_last_reply_witness :
  exists rr r,
    fst (run_answered automatic_agent) = Ok rr /\
    r_status rr = "completed" /\
    r_result rr = Some r /\
    last_opt (messages (self nat (snd (run_answered automatic_agent))))
    = Some (mkMessage "assistant" r).
Proof.
  assert (H : exists rr, fst (run_answered automatic_agent) = Ok rr /\
                         r_status rr = "completed")
    by (eexists; split; lazy; reflexivity).
  destruct H as (rr & Hrun & Hst).
  destruct (completed_run_result_is_last_reply nat (sample_send None)
              sample_select sample_check_accept sample_now sample_format_exc
              sample_dumps_workflow automatic_agent rr Hrun Hst)
    as (evs & q & r & _ & Hlast & Hres).
  exists rr, r. repeat split; assumption.
Defined.

(** A configuration without a description. *)
Lemma run_reports_build_failure_witness :
  exists rr,
    fst (run_answered
           (init nat sample_now "math_agent" "Solve x^2 - 4 = 0" [] (Ok "[]") 0))
    = Ok rr /\
    r_status rr = "error" /\
    r_error rr = None /\
    r_rounds rr = 0.
Proof.
  destruct (run_reports_build_failure nat (sample_send None) sample_select
              sample_check_accept sample_now sample_format_exc
              sample_dumps_workflow
              (init nat sample_now "math_agent" "Solve x^2 - 4 = 0" []
                 (Ok "[]") 0))
    as (rr & Hrun & Hst & _ & Herr & Hr & _); [ left; reflexivity | ].
  exists rr. repeat split; assumption.
Defined.

(** The automatic agent with a validator that accepts nothing. *)
Lemma rejected_planning_fails_the_run_witness :
  exists rr,
    fst (run nat (sample_send None) sample_select sample_check_reject sample_now
           sample_format_exc sample_dumps_workflow automatic_agent) = Ok rr /\
    r_status rr = "failed" /\
    r_rounds rr = 3.
Proof.
  destruct (rejected_planning_fails_the_run nat (sample_send None) sample_select
              sample_check_reject sample_now sample_format_exc
              sample_dumps_workflow)
    with (c := automatic_agent) (d := ["You are a math expert. "]) (dump := "[]")
    as (rr & Hrun & Hst & _ & _ & Hr & _);
    [ intros; eexists; reflexivity
    | intros; eexists; split; reflexivity
    | reflexivity | reflexivity | reflexivity | ].
  exists rr. repeat split; assumption.
Defined.

(** The automatic agent with the backend down. *)
Lemma planning_exception_reported_as_failed_witness :
  exists rr,
    fst (run nat sample_send_down sample_select sample_check_accept sample_now
           sample_format_exc sample_dumps_workflow automatic_agent) = Ok rr /\
    r_status rr = "failed" /\
    r_error rr = None /\
    r_rounds rr = 0.
Proof.
  destruct (planning_exception_reported_as_failed nat sample_send_down
              sample_select sample_check_accept sample_now sample_format_exc
              sample_dumps_workflow automatic_agent ["You are a math expert. "]
              "[]" 2 "connection reset")
    as (rr & Hrun & Hst & _ & Herr & Hr & _);
    [ reflexivity | reflexivity | reflexivity | reflexivity
    | intros; reflexivity | ].
  exists rr. repeat split; assumption.
Defined.

(** The manual run of the new agent, every call answered. *)
Lemma manual_run_conversation_witness :
  exists rr a3,
    fst (run_answered fresh_agent) = Ok rr /\
    r_status rr = "completed" /\
    r_rounds rr = 3 /\
    r_result rr = Some a3.
Proof.
  assert (H : exists rr, fst (run_answered fresh_agent) = Ok rr /\
                         r_status rr = "completed")
    by (eexists; split; lazy; reflexivity).
  destruct H as (rr & Hrun & Hst).
  destruct (manual_run_conversation nat (sample_send None) sample_select
              sample_check_accept sample_now sample_format_exc
              sample_dumps_workflow fresh_agent ["You are a math expert. "]
              "[]" rr eq_refl eq_refl eq_refl Hrun Hst)
    as (sel & a1 & a2 & a3 & q1 & q2 & q3 & _ & _ & _ & _ & Hr & Hres).
  exists rr, a3. repeat split; assumption.
Defined.
